(** * gemini_run_script.py: retry with backoff and the batch driver

    A shallow embedding of [generate_content_with_retry],
    [get_bounding_boxes] and [process_multiple_images].  Python integers are
    [Z]; the remote service, the file system and the library calls are an
    environment record; [print], [time.sleep], the remote call counter and the
    output file are threaded through an explicit world.  A [str] is held as
    its UTF-8 encoding.  The exceptions raised inside the functions derive
    from [Exception]: they are what [except Exception] catches.  An
    interrupt of the process is modelled apart, at the head of an iteration
    of the batch loop. *)

From Stdlib Require Import ZArith String Ascii List Bool Lia.
From stdpp Require Import base list strings.

Local Open Scope string_scope.
Local Open Scope list_scope.
Local Open Scope Z_scope.

(** ** Data *)

(** A raised exception: its class name and [str(e)]. *)
Record exn := mkExn { exn_class : string; exn_str : string }.

Inductive result (A : Type) : Type :=
| Return (a : A)
| Raise (e : exn).
Arguments Return {A} a.
Arguments Raise {A} e.

(** What [json.loads] produces.  An [int] is kept as such, a [float] by its
    [repr]; an object holds its members, one per key. *)
#[warnings="-register-all"]
Inductive json :=
| JNull
| JBool (b : bool)
| JNum (z : Z)
| JFloat (repr : string)
| JStr (s : string)
| JArr (items : list json)
| JObj (members : list (string * json)).

(** [response.usage_metadata], when present. *)
Record UsageMetadata := { total_token_count : option Z }.

(** The response object of [client.models.generate_content]. *)
Record Response := {
  usage_metadata : option UsageMetadata;
  text : option string
}.

(** [formatted_result]: the dict with keys [file_name] and [detections]. *)
Record FileData := {
  file_name : string;
  detections : json
}.

(** One constructor per [print] of the script. *)
Inductive event :=
| PrintRetry (attempt max_retries : Z) (e : exn) (delay : Z)
| PrintRetryFailed (max_retries : Z)
| PrintFatal (e : exn)
| PrintNotFound (path : string)
| PrintTokens (total : option Z)
| PrintSkipping (path : string) (e : exn)
| PrintStart (n : nat)
| PrintProcessing (i n : nat) (path : string)
| PrintDetected (n : nat)
| PrintFailedData
| PrintComplete (ok total : nat) (out : string)
| PrintSaveError (e : exn).

(** The observable state: how many remote calls were made, the delays slept
    (oldest first), the lines printed (oldest first), the files written. *)
Record World := {
  calls : nat;
  sleeps : list Z;
  stdout : list event;
  files : list (string * list FileData)
}.

(** Everything the script consumes but does not implement.  The remote
    service answers the [n]-th call of the run (counted from 0). *)
Record Env := {
  genai_Client : result unit;
  os_path_exists : string -> bool;
  Image_open : string -> result unit;
  models_generate_content : nat -> result Response;
  json_loads : string -> result json;
  open_w : string -> result unit
}.

(** ** Effects *)

Definition M (A : Type) : Type := World -> result A * World.

Definition ret {A} (a : A) : M A := fun w => (Return a, w).

Definition raise {A} (e : exn) : M A := fun w => (Raise e, w).

Definition lift {A} (r : result A) : M A := fun w => (r, w).

Definition bind {A B} (m : M A) (k : A -> M B) : M B :=
  fun w =>
    match m w with
    | (Return a, w') => k a w'
    | (Raise e, w') => (Raise e, w')
    end.

(** [try: m except Exception as e: h e]; what [m] did to the world stays. *)
Definition try_except {A} (m : M A) (h : exn -> M A) : M A :=
  fun w =>
    match m w with
    | (Return a, w') => (Return a, w')
    | (Raise e, w') => h e w'
    end.

Declare Scope py_scope.
Delimit Scope py_scope with py.
Notation "x <- m ;; k" := (bind m (fun x => k))
  (at level 100, m at next level, right associativity) : py_scope.
Notation "m ;;; k" := (bind m (fun _ => k))
  (at level 100, right associativity) : py_scope.
Local Open Scope py_scope.

(** World updates: one more line on stdout, one more delay slept, one more
    remote call made, one more file written. *)
Definition printed (ev : event) (w : World) : World :=
  {| calls := calls w; sleeps := sleeps w;
     stdout := stdout w ++ [ev]; files := files w |}.

Definition slept_for (delay : Z) (w : World) : World :=
  {| calls := calls w; sleeps := sleeps w ++ [delay];
     stdout := stdout w; files := files w |}.

Definition called (w : World) : World :=
  {| calls := S (calls w); sleeps := sleeps w;
     stdout := stdout w; files := files w |}.

Definition written (path : string) (doc : list FileData) (w : World) : World :=
  {| calls := calls w; sleeps := sleeps w; stdout := stdout w;
     files := (path, doc) :: files w |}.

Definition print (ev : event) : M unit :=
  fun w => (Return tt, printed ev w).

(** The largest whole number of seconds that fits the signed 64-bit count of
    nanoseconds [time.sleep] converts its argument to. *)
Definition SLEEP_MAX : Z := 9223372036.

(** [time.sleep] on an [int] (CPython 3.11): the conversion to nanoseconds
    comes first and overflows outside [-SLEEP_MAX .. SLEEP_MAX]; then a
    negative length is rejected. *)
Definition time_sleep (delay : Z) : M unit :=
  fun w =>
    if (delay <? - SLEEP_MAX) || (SLEEP_MAX <? delay)
    then (Raise (mkExn "OverflowError"
                       "timestamp too large to convert to C _PyTime_t"), w)
    else if delay <? 0
    then (Raise (mkExn "ValueError" "sleep length must be non-negative"), w)
    else (Return tt, slept_for delay w).

(** The least magnitude of an [int] that does not round to a [float]:
    halfway between the largest double and [2 ** 1024]. *)
Definition FLOAT_OVERFLOW : Z := 2 ^ 1024 - 2 ^ 970.

(** [f"{delay:.1f}"] on an [int]: the number is converted to a [float]
    before it is formatted. *)
Definition format_1f (delay : Z) : M unit :=
  fun w =>
    if FLOAT_OVERFLOW <=? Z.abs delay
    then (Raise (mkExn "OverflowError" "int too large to convert to float"), w)
    else (Return tt, w).

(** [client.models.generate_content(...)]: one remote call. *)
Definition generate_content (E : Env) : M Response :=
  fun w => (models_generate_content E (calls w), called w).

(** ** Strings *)

(** Python's [needle in hay] on [str]. *)
Fixpoint contains (needle hay : string) : bool :=
  String.prefix needle hay ||
  match hay with
  | EmptyString => false
  | String _ hay' => contains needle hay'
  end.

(** ** generate_content_with_retry *)

Definition OUTPUT_JSON_FILE : string := "underwater_detections.json".

Definition MAX_RETRIES : Z := 5.
Definition INITIAL_DELAY : Z := 2.

(** The base of [2 ** attempt]. *)
Definition backoff_multiplier : Z := 2.

Definition retriable_markers : list string :=
  ["RESOURCE_EXHAUSTED"; "429"; "InternalServerError"; "500";
   "ServiceUnavailable"; "503"].

Definition is_retriable_error (error_message : string) : bool :=
  contains "RESOURCE_EXHAUSTED" error_message ||
  contains "429" error_message ||
  contains "InternalServerError" error_message ||
  contains "500" error_message ||
  contains "ServiceUnavailable" error_message ||
  contains "503" error_message.

(** The [for attempt in range(max_retries)] loop; [fuel] is the number of
    iterations left and [attempt] the loop variable. *)
Fixpoint retry_loop (E : Env) (max_retries initial_delay : Z)
    (fuel : nat) (attempt : Z) : M (option Response) :=
  match fuel with
  | O => ret None
  | S fuel' =>
    try_except
      (response <- generate_content E ;; ret (Some response))
      (fun e =>
         let error_message := exn_str e in
         if is_retriable_error error_message && (attempt <? max_retries - 1)
         then
           let delay := initial_delay * backoff_multiplier ^ attempt in
           format_1f delay ;;;
           print (PrintRetry (attempt + 1) max_retries e delay) ;;;
           time_sleep delay ;;;
           retry_loop E max_retries initial_delay fuel' (attempt + 1)
         else
           (if is_retriable_error error_message
            then print (PrintRetryFailed max_retries)
            else print (PrintFatal e)) ;;;
           raise e)
  end.

Definition generate_content_with_retry (E : Env)
    (max_retries initial_delay : Z) : M (option Response) :=
  retry_loop E max_retries initial_delay (Z.to_nat max_retries) 0.

(** ** Library functions on strings and paths *)

(** [str.isspace] on one character, by the bytes of its UTF-8 encoding:
    U+0009..U+000D, U+001C..U+0020; *)
Definition space1 (a : ascii) : bool :=
  let a := nat_of_ascii a in
  ((9 <=? a) && (a <=? 13) || (28 <=? a) && (a <=? 32))%nat.

(** U+0085 and U+00A0; *)
Definition space2 (a b : ascii) : bool :=
  let a := nat_of_ascii a in
  let b := nat_of_ascii b in
  ((a =? 194) && ((b =? 133) || (b =? 160)))%nat.

(** U+1680, U+2000..U+200A, U+2028, U+2029, U+202F, U+205F and U+3000. *)
Definition space3 (a b c : ascii) : bool :=
  let a := nat_of_ascii a in
  let b := nat_of_ascii b in
  let c := nat_of_ascii c in
  ((a =? 225) && (b =? 154) && (c =? 128) ||
   (a =? 226) && (b =? 128) &&
     ((128 <=? c) && (c <=? 138) || (c =? 168) || (c =? 169) || (c =? 175)) ||
   (a =? 226) && (b =? 129) && (c =? 159) ||
   (a =? 227) && (b =? 128) && (c =? 128))%nat.

(** [s.lstrip()] *)
Fixpoint lstrip (s : string) : string :=
  match s with
  | String a s1 =>
    if space1 a then lstrip s1
    else
      match s1 with
      | String b s2 =>
        if space2 a b then lstrip s2
        else
          match s2 with
          | String c s3 => if space3 a b c then lstrip s3 else s
          | EmptyString => s
          end
      | EmptyString => s
      end
  | EmptyString => EmptyString
  end.

(** [lstrip] of a string read from its end. *)
Fixpoint lstrip_reversed (s : string) : string :=
  match s with
  | String a s1 =>
    if space1 a then lstrip_reversed s1
    else
      match s1 with
      | String b s2 =>
        if space2 b a then lstrip_reversed s2
        else
          match s2 with
          | String c s3 => if space3 c b a then lstrip_reversed s3 else s
          | EmptyString => s
          end
      | EmptyString => s
      end
  | EmptyString => EmptyString
  end.

Definition reversed (s : string) : string :=
  string_of_list_ascii (rev (list_ascii_of_string s)).

(** [s.rstrip()] *)
Definition rstrip (s : string) : string :=
  reversed (lstrip_reversed (reversed s)).

(** [s.strip()] *)
Definition strip (s : string) : string := rstrip (lstrip s).

Fixpoint has_char (c : ascii) (s : string) : bool :=
  match s with
  | String d s' => Ascii.eqb c d || has_char c s'
  | EmptyString => false
  end.

(** [os.path.basename] (POSIX): what follows the last slash. *)
Fixpoint basename (p : string) : string :=
  match p with
  | String c rest =>
    if has_char "/" rest then basename rest
    else if Ascii.eqb c "/" then rest else p
  | EmptyString => EmptyString
  end.

(** [s.rfind(c)], [None] for -1. *)
Fixpoint rfind (c : ascii) (s : string) : option nat :=
  match s with
  | String d s' =>
    match rfind c s' with
    | Some i => Some (S i)
    | None => if Ascii.eqb c d then Some O else None
    end
  | EmptyString => None
  end.

(** [os.path.splitext] (POSIX): the extension starts at the last dot of the
    last component, unless only dots precede it there. *)
Definition splitext (p : string) : string * string :=
  match rfind "." p with
  | None => (p, "")
  | Some dotIndex =>
    let filenameIndex :=
      match rfind "/" p with Some sepIndex => S sepIndex | None => O end in
    let stem := substring filenameIndex (dotIndex - filenameIndex) p in
    if (filenameIndex <=? dotIndex)%nat &&
       negb (String.eqb stem (string_of_list_ascii
               (repeat "."%char (String.length stem))))
    then (substring 0 dotIndex p,
          substring dotIndex (String.length p - dotIndex) p)
    else (p, "")
  end.

(** The number of characters of a [str]: the bytes of its encoding that do
    not continue a character. *)
Fixpoint code_points (s : string) : nat :=
  match s with
  | String c s' =>
    let n := nat_of_ascii c in
    if ((128 <=? n) && (n <? 192))%nat then code_points s'
    else S (code_points s')
  | EmptyString => O
  end.

(** The [TypeError] of [len] on an object of type [type_name]. *)
Definition no_len (type_name : string) : exn :=
  mkExn "TypeError" ("object of type '" +:+ type_name +:+ "' has no len()").

(** Python's [len] on a decoded JSON value. *)
Definition py_len (v : json) : result nat :=
  match v with
  | JStr s => Return (code_points s)
  | JArr items => Return (length items)
  | JObj members => Return (length members)
  | JNum _ => Raise (no_len "int")
  | JFloat _ => Raise (no_len "float")
  | JBool _ => Raise (no_len "bool")
  | JNull => Raise (no_len "NoneType")
  end.

Definition is_None (v : json) : bool :=
  match v with JNull => true | _ => false end.

(** ** get_bounding_boxes *)

(** The body of the [try] block.  The schema, the config and the prompt are
    constants handed to the remote call and do not influence control flow. *)
Definition get_bounding_boxes_body (E : Env) (image_file_path : string)
    : M (option FileData) :=
  client <- lift (genai_Client E) ;;
  if negb (os_path_exists E image_file_path)
  then print (PrintNotFound image_file_path) ;;; ret None
  else
    img <- lift (Image_open E image_file_path) ;;
    let file_name_without_ext :=
      fst (splitext (basename image_file_path)) in
    response <- generate_content_with_retry E MAX_RETRIES INITIAL_DELAY ;;
    match response with
    | Some r =>
      match usage_metadata r with
      | Some um => print (PrintTokens (total_token_count um))
      | None => ret tt
      end
    | None => ret tt
    end ;;;
    response_text <-
      match response with
      | Some r =>
        match text r with
        | Some t => ret t
        | None =>
          raise (mkExn "AttributeError"
                       "'NoneType' object has no attribute 'strip'")
        end
      | None =>
        raise (mkExn "AttributeError"
                     "'NoneType' object has no attribute 'text'")
      end ;;
    let coordinates_json := strip response_text in
    detections_list <- lift (json_loads E coordinates_json) ;;
    let formatted_result :=
      {| file_name := file_name_without_ext;
         detections := detections_list |} in
    ret (Some formatted_result).

Definition get_bounding_boxes (E : Env) (image_file_path : string)
    : M (option FileData) :=
  try_except (get_bounding_boxes_body E image_file_path)
    (fun e => print (PrintSkipping image_file_path e) ;;; ret None).

(** ** process_multiple_images *)

(** The [for i, image_path in enumerate(image_paths)] loop; [total] is
    [len(image_paths)] and [i] the index of the head of [image_paths]. *)
Fixpoint process_loop (E : Env) (total : nat) (i : nat)
    (image_paths : list string) (all_results : list FileData)
    : M (list FileData) :=
  match image_paths with
  | [] => ret all_results
  | image_path :: rest =>
    print (PrintProcessing (i + 1) total image_path) ;;;
    file_data <- get_bounding_boxes E image_path ;;
    match file_data with
    | Some fd =>
      if negb (is_None (detections fd))
      then
        let all_results := all_results ++ [fd] in
        n <- lift (py_len (detections fd)) ;;
        print (PrintDetected n) ;;;
        process_loop E total (i + 1) rest all_results
      else
        print PrintFailedData ;;;
        process_loop E total (i + 1) rest all_results
    | None =>
      print PrintFailedData ;;;
      process_loop E total (i + 1) rest all_results
    end
  end.

(** Lines 151-164: the in-memory report [all_results] as the loop leaves it. *)
Definition collect_results (E : Env) (image_paths : list string)
    : M (list FileData) :=
  print (PrintStart (length image_paths)) ;;;
  process_loop E (length image_paths) 0 image_paths [].

(** [sum(len(d['detections']) for d in all_results)] *)
Fixpoint total_detections (all_results : list FileData) : result nat :=
  match all_results with
  | [] => Return O
  | d :: rest =>
    match py_len (detections d) with
    | Return n =>
      match total_detections rest with
      | Return m => Return (n + m)%nat
      | Raise e => Raise e
      end
    | Raise e => Raise e
    end
  end.

(** [json.dump(all_results, f, indent=4)] into the freshly opened file. *)
Definition json_dump (all_results : list FileData) (path : string) : M unit :=
  fun w => (Return tt, written path all_results w).

(** Lines 166-177. *)
Definition save_results (E : Env) (all_results : list FileData)
    (output_json_file : string) : M unit :=
  try_except
    (f <- lift (open_w E output_json_file) ;;
     json_dump all_results output_json_file ;;;
     total <- lift (total_detections all_results) ;;
     print (PrintComplete (length all_results) total output_json_file))
    (fun e => print (PrintSaveError e)).

Definition process_multiple_images (E : Env) (image_paths : list string)
    (output_json_file : string) : M unit :=
  all_results <- collect_results E image_paths ;;
  save_results E all_results output_json_file.

(** ** An interrupt between two items *)

(** The script installs no signal handler and catches no [BaseException]:
    interrupting the process raises [KeyboardInterrupt] where the script is
    running. *)
Definition KeyboardInterrupt : exn := mkExn "KeyboardInterrupt" "".

(** The body of one iteration of the loop of lines 155-164. *)
Definition process_item (E : Env) (total : nat) (i : nat)
    (image_path : string) (all_results : list FileData)
    : M (list FileData) :=
  print (PrintProcessing (i + 1) total image_path) ;;;
  file_data <- get_bounding_boxes E image_path ;;
  match file_data with
  | Some fd =>
    if negb (is_None (detections fd))
    then
      let all_results := all_results ++ [fd] in
      n <- lift (py_len (detections fd)) ;;
      print (PrintDetected n) ;;;
      ret all_results
    else print PrintFailedData ;;; ret all_results
  | None => print PrintFailedData ;;; ret all_results
  end.

(** The loop when the process is interrupted: [interrupted i] tells whether
    the interrupt arrives after iteration [i - 1] is over and before
    iteration [i] starts; it is then raised at the head of the loop, outside
    every [try]. *)
Fixpoint process_loop_interrupted (E : Env) (interrupted : nat -> bool)
    (total : nat) (i : nat) (image_paths : list string)
    (all_results : list FileData) : M (list FileData) :=
  match image_paths with
  | [] => ret all_results
  | image_path :: rest =>
    if interrupted i then raise KeyboardInterrupt
    else
      all_results <- process_item E total i image_path all_results ;;
      process_loop_interrupted E interrupted total (i + 1) rest all_results
  end.

Definition process_multiple_images_interrupted (E : Env)
    (interrupted : nat -> bool) (image_paths : list string)
    (output_json_file : string) : M unit :=
  print (PrintStart (length image_paths)) ;;;
  all_results <-
    process_loop_interrupted E interrupted (length image_paths) 0
      image_paths [] ;;
  save_results E all_results output_json_file.

(** ** The script's entry point *)

Definition IMAGE_DIR : string := "test".
Definition IMAGE_EXTENSIONS : list string := [".jpg"; ".jpeg"].

(** [c.lower()] on the ASCII range. *)
Definition lower_char (c : ascii) : ascii :=
  let n := nat_of_ascii c in
  if ((65 <=? n) && (n <=? 90))%nat then ascii_of_nat (n + 32) else c.

(** [s.lower()] *)
Fixpoint lower (s : string) : string :=
  match s with
  | String c s' => String (lower_char c) (lower s')
  | EmptyString => EmptyString
  end.

(** [s.endswith(suffix)] for one suffix. *)
Fixpoint endswith (s suffix : string) : bool :=
  String.eqb s suffix ||
  match s with
  | String _ s' => endswith s' suffix
  | EmptyString => false
  end.

(** [f.lower().endswith(IMAGE_EXTENSIONS)]: a tuple matches when one of its
    members does. *)
Definition is_image_name (f : string) : bool :=
  existsb (endswith (lower f)) IMAGE_EXTENSIONS.

(** [os.path.join(a, b)] (POSIX, two components). *)
Definition os_path_join (a b : string) : string :=
  if String.prefix "/" b then b
  else if String.eqb a "" || endswith a "/" then a +:+ b
  else a +:+ "/" +:+ b.

(** What the entry point asks of the file system. *)
Record Dir := {
  os_path_isdir : string -> bool;
  os_listdir : string -> result (list string)
}.

(** The two lines the entry point prints itself.  They are returned, not put
    on [stdout]: nothing else is printed on the paths that print them. *)
Inductive notice :=
| PrintNoDirectory (dir : string)
| PrintNoImages (dir : string).

(** The [if __name__ == "__main__":] block.  [Some] notice when the script
    stops before the batch, [None] when the batch ran. *)
Definition main (E : Env) (D : Dir) : M (option notice) :=
  if negb (os_path_isdir D IMAGE_DIR)
  then ret (Some (PrintNoDirectory IMAGE_DIR))
  else
    names <- lift (os_listdir D IMAGE_DIR) ;;
    let image_files_to_process :=
      map (os_path_join IMAGE_DIR) (List.filter is_image_name names) in
    match image_files_to_process with
    | [] => ret (Some (PrintNoImages IMAGE_DIR))
    | _ :: _ =>
      process_multiple_images E image_files_to_process OUTPUT_JSON_FILE ;;;
      ret None
    end.

(** ** Observations on a run *)

(** Total time slept so far. *)
Definition slept (w : World) : Z := fold_right Z.add 0 (sleeps w).

(** The delays of [k] consecutive retries, the first one at loop index
    [attempt]. *)
Definition delays (initial_delay attempt : Z) (k : nat) : list Z :=
  map (fun i => initial_delay * backoff_multiplier ^ (attempt + Z.of_nat i))
      (seq 0 k).

(** The next [k] remote calls made from world [w] on all fail with an error
    that [is_retriable_error] accepts. *)
Definition fails_retriably (E : Env) (w : World) (k : nat) : Prop :=
  forall i, (i < k)%nat ->
    exists e, models_generate_content E (calls w + i) = Raise e /\
              is_retriable_error (exn_str e) = true.

Definition is_PrintRetry (ev : event) : Prop :=
  match ev with PrintRetry _ _ _ _ => True | _ => False end.

(** The paths announced by a "Processing:" line, in order. *)
Fixpoint attempted (out : list event) : list string :=
  match out with
  | PrintProcessing _ _ path :: out' => path :: attempted out'
  | _ :: out' => attempted out'
  | [] => []
  end.

(** How many "Failed to get valid data. Skipping file." lines were printed. *)
Fixpoint skipped (out : list event) : nat :=
  match out with
  | PrintFailedData :: out' => S (skipped out')
  | _ :: out' => skipped out'
  | [] => O
  end.

(** The lines printed while one item is processed, as opposed to those of
    the batch loop. *)
Definition item_line (ev : event) : Prop :=
  match ev with
  | PrintRetry _ _ _ _ | PrintRetryFailed _ | PrintFatal _
  | PrintNotFound _ | PrintTokens _ | PrintSkipping _ _ => True
  | _ => False
  end.

(** [w'] comes after [w] by steps of one item's processing: no file was
    written and only item lines were printed. *)
Definition item_steps (w w' : World) : Prop :=
  files w' = files w /\
  exists lines, stdout w' = stdout w ++ lines /\ Forall item_line lines.

(** [file_name_without_ext] of a path. *)
Definition stem (image_file_path : string) : string :=
  fst (splitext (basename image_file_path)).

(** Every payload the service sends that decodes at all decodes to a value
    with a length or to null: an array, an object, a string or null, never a
    bare number or boolean. *)
Definition payloads_sized (E : Env) : Prop :=
  forall n r t v,
    models_generate_content E n = Return r ->
    text r = Some t ->
    json_loads E (strip t) = Return v ->
    is_None v = true \/ exists len, py_len v = Return len.

(** A delay [time.sleep] sleeps for. *)
Definition sleep_accepts (delay : Z) : Prop := 0 <= delay <= SLEEP_MAX.

(** Every delay of the schedule of a policy is one [time.sleep] sleeps for:
    the first is [initial_delay], the last (before attempt
    [max_retries - 1]) is [initial_delay * 2 ** (max_retries - 2)]. *)
Definition schedule_accepted (max_retries initial_delay : Z) : Prop :=
  0 <= initial_delay /\
  initial_delay * backoff_multiplier ^ (max_retries - 2) <= SLEEP_MAX.

(** The errors [len] raises. *)
Definition is_no_len (e : exn) : Prop :=
  exists type_name, e = no_len type_name.

(** [w'] differs from [w] by printed lines only. *)
Definition only_printed (w w' : World) : Prop :=
  calls w' = calls w /\ sleeps w' = sleeps w /\ files w' = files w.

(** The most one invocation with the default policy can sleep. *)
Definition DEFAULT_MAX_WAIT : Z :=
  INITIAL_DELAY * (backoff_multiplier ^ (MAX_RETRIES - 1) - 1).

(** ** Fixtures *)

Module Fixtures.

Definition w0 : World :=
  {| calls := O; sleeps := []; stdout := []; files := [] |}.

(** A quota error, as the service words it. *)
Definition quota : exn :=
  mkExn "ClientError" "429 RESOURCE_EXHAUSTED. Quota exceeded".

Definition bad_request : exn :=
  mkExn "ClientError" "400 INVALID_ARGUMENT. Request contains an invalid argument.".

Definition empty_list_response : Response :=
  {| usage_metadata := Some {| total_token_count := Some 1200 |};
     text := Some "[]" |}.

(** [json.loads] on the three documents the fixtures use. *)
Definition loads (s : string) : result json :=
  if String.eqb s "[]" then Return (JArr [])
  else if String.eqb s "null" then Return JNull
  else if String.eqb s "5" then Return (JNum 5)
  else Raise (mkExn "JSONDecodeError" "Expecting value").

(** Every file exists and opens, the client is built, the output file can
    be written; the service answers call [n] with the [n]-th entry of
    [script] and with [default] afterwards. *)
Definition scripted (script : list (result Response))
    (default : result Response) : Env :=
  {| genai_Client := Return tt;
     os_path_exists := fun _ => true;
     Image_open := fun _ => Return tt;
     models_generate_content := fun n => nth n script default;
     json_loads := loads;
     open_w := fun _ => Return tt |}.

(** The second call fails for good, every other call succeeds. *)
Definition second_fatal : Env :=
  scripted [Return empty_list_response; Raise bad_request]
           (Return empty_list_response).

(** Every call succeeds. *)
Definition all_ok : Env := scripted [] (Return empty_list_response).

(** The service answers every call with the quota error. *)
Definition quota_forever : Env := scripted [] (Raise quota).

(** An error unrelated to the service whose text happens to hold "429". *)
Definition path_with_429 : exn :=
  mkExn "FileNotFoundError"
        "[Errno 2] No such file or directory: 'runs/429/img.jpg'".

(** A transient network error whose text holds none of the six markers. *)
Definition connection_reset : exn :=
  mkExn "ConnectionResetError" "[Errno 104] Connection reset by peer".

(** The output file cannot be opened; everything else works. *)
Definition permission_denied : exn :=
  mkExn "PermissionError" "[Errno 13] Permission denied".

Definition read_only : Env :=
  {| genai_Client := Return tt;
     os_path_exists := fun _ => true;
     Image_open := fun _ => Return tt;
     models_generate_content := fun _ => Return empty_list_response;
     json_loads := loads;
     open_w := fun _ => Raise permission_denied |}.

(** No path exists. *)
Definition no_files : Env :=
  {| genai_Client := Return tt;
     os_path_exists := fun _ => false;
     Image_open := fun _ => Return tt;
     models_generate_content := fun _ => Return empty_list_response;
     json_loads := loads;
     open_w := fun _ => Return tt |}.

(** A response whose text is not JSON, and one whose text is a number. *)
Definition garbled_response : Response :=
  {| usage_metadata := None; text := Some "oops" |}.

Definition number_response : Response :=
  {| usage_metadata := None; text := Some "5" |}.

(** The image directory is missing. *)
Definition missing_dir : Dir :=
  {| os_path_isdir := fun _ => false;
     os_listdir := fun _ => Raise (mkExn "FileNotFoundError" "test") |}.

(** The image directory holds two images and a text file. *)
Definition three_entries : Dir :=
  {| os_path_isdir := fun _ => true;
     os_listdir := fun _ => Return ["a.jpg"; "notes.txt"; "B.JPEG"] |}.

(** The first call fails for good, the second answers with a bare number. *)
Definition fatal_then_number : Env :=
  scripted [Raise bad_request; Return number_response]
           (Return empty_list_response).

(** A delay of some three hundred years. *)
Definition HUGE_DELAY : Z := 10 ^ 10.

(** The first call fails with the quota error, the others succeed. *)
Definition quota_once : Env :=
  scripted [Raise quota] (Return empty_list_response).

(** The interrupt arrives between the first item and the second. *)
Definition after_first_item (i : nat) : bool := Nat.eqb i 1.

End Fixtures.

(** * Properties *)

(** ** Sanity checks of the library models *)

Example basename_nested : basename "test/a.b/img_01.jpg" = "img_01.jpg".
Proof. reflexivity. Qed.

Example splitext_last_dot : splitext "img_01.tar.jpg" = ("img_01.tar", ".jpg").
Proof. reflexivity. Qed.

Example splitext_leading_dot : splitext ".cshrc" = (".cshrc", "").
Proof. reflexivity. Qed.

Example splitext_dot_in_directory : splitext "a.b/c" = ("a.b/c", "").
Proof. reflexivity. Qed.

Example strip_both_ends : strip "  [ 1 ]  " = "[ 1 ]".
Proof. reflexivity. Qed.

(** ** One iteration of the retry loop *)

Lemma sleep_max_lt_float_overflow : SLEEP_MAX < FLOAT_OVERFLOW.
Proof. vm_compute. reflexivity. Qed.

Lemma sleep_accepts_dec delay : {sleep_accepts delay} + {~ sleep_accepts delay}.
Proof.
  unfold sleep_accepts.
  destruct (Z_le_dec 0 delay); [| right; lia].
  destruct (Z_le_dec delay SLEEP_MAX); [left | right]; lia.
Qed.

Lemma format_1f_accepted delay w :
  sleep_accepts delay -> format_1f delay w = (Return tt, w).
Proof.
  intros [Hlo Hhi]. unfold format_1f.
  pose proof sleep_max_lt_float_overflow as Hlt.
  assert (Hok : (FLOAT_OVERFLOW <=? Z.abs delay) = false).
  { apply Z.leb_gt. rewrite Z.abs_eq by assumption.
    eapply Z.le_lt_trans; eassumption. }
  now rewrite Hok.
Qed.

Lemma time_sleep_accepted delay w :
  sleep_accepts delay -> time_sleep delay w = (Return tt, slept_for delay w).
Proof.
  intros [Hlo Hhi]. unfold time_sleep.
  assert (H1 : (delay <? - SLEEP_MAX) = false)
    by (apply Z.ltb_ge; unfold SLEEP_MAX in *; lia).
  assert (H2 : (SLEEP_MAX <? delay) = false) by (apply Z.ltb_ge; lia).
  assert (H3 : (delay <? 0) = false) by (apply Z.ltb_ge; lia).
  now rewrite H1, H2, H3.
Qed.

(** A delay out of range is not slept: [time.sleep] raises. *)
Lemma time_sleep_rejected delay w :
  ~ sleep_accepts delay ->
  exists e,
    time_sleep delay w = (Raise e, w) /\
    exn_class e
    = (if (delay <? - SLEEP_MAX) || (SLEEP_MAX <? delay)
       then "OverflowError" else "ValueError").
Proof.
  intros Hno. unfold time_sleep.
  destruct ((delay <? - SLEEP_MAX) || (SLEEP_MAX <? delay)) eqn:Hrange;
    [eexists; split; reflexivity |].
  apply orb_false_iff in Hrange as [H1 H2].
  apply Z.ltb_ge in H1, H2.
  assert (H3 : (delay <? 0) = true)
    by (apply Z.ltb_lt; unfold sleep_accepts in Hno; lia).
  rewrite H3. eexists; split; reflexivity.
Qed.

Section RetryLoop.

Variable E : Env.
Variables max_retries initial_delay : Z.

Lemma retry_loop_success fuel attempt w r :
  models_generate_content E (calls w) = Return r ->
  retry_loop E max_retries initial_delay (S fuel) attempt w
  = (Return (Some r), called w).
Proof.
  intros Hcall. simpl. unfold try_except, bind, generate_content.
  rewrite Hcall. reflexivity.
Qed.

Lemma retry_loop_retry fuel attempt w e :
  models_generate_content E (calls w) = Raise e ->
  is_retriable_error (exn_str e) = true ->
  attempt < max_retries - 1 ->
  sleep_accepts (initial_delay * backoff_multiplier ^ attempt) ->
  retry_loop E max_retries initial_delay (S fuel) attempt w
  = retry_loop E max_retries initial_delay fuel (attempt + 1)
      (slept_for (initial_delay * backoff_multiplier ^ attempt)
         (printed (PrintRetry (attempt + 1) max_retries e
                     (initial_delay * backoff_multiplier ^ attempt))
            (called w))).
Proof.
  intros Hcall Hret Hlt Hdelay. simpl.
  unfold try_except, bind at 1. unfold generate_content. rewrite Hcall, Hret.
  apply Z.ltb_lt in Hlt. rewrite Hlt. cbn [andb].
  unfold bind at 1. rewrite (format_1f_accepted _ _ Hdelay).
  unfold bind at 1. unfold print at 1.
  unfold bind at 1. rewrite (time_sleep_accepted _ _ Hdelay).
  reflexivity.
Qed.

(** A retriable failure whose delay is out of range ends the invocation
    with the error of the formatting or of [time.sleep]: one call was made,
    nothing more was slept and at most the retry line was printed. *)
Lemma retry_loop_rejected fuel attempt w e :
  models_generate_content E (calls w) = Raise e ->
  is_retriable_error (exn_str e) = true ->
  attempt < max_retries - 1 ->
  ~ sleep_accepts (initial_delay * backoff_multiplier ^ attempt) ->
  exists e' w',
    retry_loop E max_retries initial_delay (S fuel) attempt w = (Raise e', w') /\
    (w' = called w \/
     w' = printed (PrintRetry (attempt + 1) max_retries e
                     (initial_delay * backoff_multiplier ^ attempt))
            (called w)) /\
    exn_class e'
    = (if (initial_delay * backoff_multiplier ^ attempt <? - SLEEP_MAX)
          || (SLEEP_MAX <? initial_delay * backoff_multiplier ^ attempt)
       then "OverflowError" else "ValueError").
Proof.
  intros Hcall Hret Hlt Hdelay. simpl.
  unfold try_except, bind at 1. unfold generate_content. rewrite Hcall, Hret.
  apply Z.ltb_lt in Hlt. rewrite Hlt. cbn [andb].
  set (delay := initial_delay * backoff_multiplier ^ attempt) in *.
  unfold bind at 1. unfold format_1f.
  destruct (FLOAT_OVERFLOW <=? Z.abs delay) eqn:Hfloat.
  - exists (mkExn "OverflowError" "int too large to convert to float"),
      (called w).
    split; [reflexivity |]. split; [left; reflexivity |].
    apply Z.leb_le in Hfloat. pose proof sleep_max_lt_float_overflow as Hlt'.
    assert (Hout : (delay <? - SLEEP_MAX) || (SLEEP_MAX <? delay) = true).
    { apply orb_true_iff.
      destruct (Z_le_dec 0 delay) as [Hpos | Hneg].
      - right. apply Z.ltb_lt. rewrite Z.abs_eq in Hfloat by assumption. lia.
      - left. apply Z.ltb_lt. rewrite Z.abs_neq in Hfloat by lia. lia. }
    now rewrite Hout.
  - unfold bind at 1. unfold print at 1. unfold bind at 1.
    destruct (time_sleep_rejected delay
                (printed (PrintRetry (attempt + 1) max_retries e delay)
                   (called w)) Hdelay) as (e' & Hsleep & Hclass).
    rewrite Hsleep.
    exists e', (printed (PrintRetry (attempt + 1) max_retries e delay)
                  (called w)).
    split; [reflexivity |]. split; [right; reflexivity | exact Hclass].
Qed.

Lemma retry_loop_exhausted fuel attempt w e :
  models_generate_content E (calls w) = Raise e ->
  is_retriable_error (exn_str e) = true ->
  max_retries - 1 <= attempt ->
  retry_loop E max_retries initial_delay (S fuel) attempt w
  = (Raise e, printed (PrintRetryFailed max_retries) (called w)).
Proof.
  intros Hcall Hret Hge. simpl.
  unfold try_except, bind, generate_content. rewrite Hcall, Hret.
  apply Z.ltb_ge in Hge. rewrite Hge. reflexivity.
Qed.

Lemma retry_loop_fatal fuel attempt w e :
  models_generate_content E (calls w) = Raise e ->
  is_retriable_error (exn_str e) = false ->
  retry_loop E max_retries initial_delay (S fuel) attempt w
  = (Raise e, printed (PrintFatal e) (called w)).
Proof.
  intros Hcall Hret. simpl.
  unfold try_except, bind, generate_content. rewrite Hcall, Hret.
  reflexivity.
Qed.

(** The five ways an iteration can go. *)
Lemma retry_loop_cases fuel attempt w :
  let run := retry_loop E max_retries initial_delay (S fuel) attempt w in
  let delay := initial_delay * backoff_multiplier ^ attempt in
  (exists r, models_generate_content E (calls w) = Return r /\
             run = (Return (Some r), called w)) \/
  (exists e, models_generate_content E (calls w) = Raise e /\
             is_retriable_error (exn_str e) = false /\
             run = (Raise e, printed (PrintFatal e) (called w))) \/
  (exists e, models_generate_content E (calls w) = Raise e /\
             is_retriable_error (exn_str e) = true /\
             max_retries - 1 <= attempt /\
             run = (Raise e, printed (PrintRetryFailed max_retries) (called w))) \/
  (exists e, models_generate_content E (calls w) = Raise e /\
             is_retriable_error (exn_str e) = true /\
             attempt < max_retries - 1 /\
             ~ sleep_accepts delay /\
             exists e' w',
               run = (Raise e', w') /\
               (w' = called w \/
                w' = printed (PrintRetry (attempt + 1) max_retries e delay)
                       (called w)) /\
               exn_class e'
               = (if (delay <? - SLEEP_MAX) || (SLEEP_MAX <? delay)
                  then "OverflowError" else "ValueError")) \/
  (exists e, models_generate_content E (calls w) = Raise e /\
             is_retriable_error (exn_str e) = true /\
             attempt < max_retries - 1 /\
             sleep_accepts delay /\
             run = retry_loop E max_retries initial_delay fuel (attempt + 1)
                     (slept_for delay
                        (printed (PrintRetry (attempt + 1) max_retries e delay)
                           (called w)))).
Proof.
  cbv zeta.
  destruct (models_generate_content E (calls w)) as [r | e] eqn:Hcall.
  - left. exists r. split; [reflexivity |]. now apply retry_loop_success.
  - right. destruct (is_retriable_error (exn_str e)) eqn:Hret.
    + right. destruct (Z_lt_le_dec attempt (max_retries - 1)) as [Hlt | Hge].
      * right.
        destruct (sleep_accepts_dec (initial_delay * backoff_multiplier ^ attempt))
          as [Hok | Hno].
        -- right. exists e. do 4 (split; [assumption || reflexivity |]).
           now apply retry_loop_retry.
        -- left. exists e. do 4 (split; [assumption || reflexivity |]).
           now apply retry_loop_rejected.
      * left. exists e. do 3 (split; [assumption || reflexivity |]).
        now apply retry_loop_exhausted.
    + left. exists e. do 2 (split; [assumption || reflexivity |]).
      now apply retry_loop_fatal.
Qed.

End RetryLoop.

(** ** Runs of consecutive retriable failures *)

Lemma delays_S initial_delay attempt k :
  delays initial_delay attempt (S k)
  = initial_delay * backoff_multiplier ^ attempt
    :: delays initial_delay (attempt + 1) k.
Proof.
  unfold delays. simpl seq. rewrite <- seq_shift. cbn [map].
  rewrite map_map. f_equal.
  - f_equal. f_equal. lia.
  - apply map_ext. intros i. f_equal. f_equal. lia.
Qed.

Lemma delays_0 initial_delay attempt : delays initial_delay attempt 0 = [].
Proof. reflexivity. Qed.

Lemma sum_app (l1 l2 : list Z) :
  fold_right Z.add 0 (l1 ++ l2) = fold_right Z.add 0 l1 + fold_right Z.add 0 l2.
Proof. induction l1 as [| x l1 IH]; simpl; [reflexivity | rewrite IH; lia]. Qed.

Lemma sum_delays initial_delay k : forall attempt,
  0 <= attempt ->
  fold_right Z.add 0 (delays initial_delay attempt k)
  = initial_delay * backoff_multiplier ^ attempt
    * (backoff_multiplier ^ Z.of_nat k - 1).
Proof.
  unfold backoff_multiplier.
  induction k as [| k IH]; intros attempt Hatt.
  - simpl. lia.
  - rewrite delays_S. unfold backoff_multiplier. simpl fold_right.
    rewrite IH by lia. unfold backoff_multiplier.
    rewrite Nat2Z.inj_succ, !Z.pow_succ_r, Z.pow_add_r by lia.
    ring.
Qed.

(** Under an accepted schedule every delay before the last attempt is
    slept. *)
Lemma schedule_accepted_delay max_retries initial_delay attempt :
  schedule_accepted max_retries initial_delay ->
  0 <= attempt -> attempt < max_retries - 1 ->
  sleep_accepts (initial_delay * backoff_multiplier ^ attempt).
Proof.
  intros [Hinit Hlast] Hatt Hlt. unfold sleep_accepts, backoff_multiplier in *.
  assert (Hpow : 0 < 2 ^ attempt) by (apply Z.pow_pos_nonneg; lia).
  assert (Hmono : 2 ^ attempt <= 2 ^ (max_retries - 2))
    by (apply Z.pow_le_mono_r; lia).
  split; [nia |]. eapply Z.le_trans; [| exact Hlast]. nia.
Qed.

Section Backoff.

Variable E : Env.
Variables max_retries initial_delay : Z.

(** After [k] retriable failures with iterations to spare, each followed by
    a delay that is slept, the loop is back at its head, [k] calls and [k]
    sleeps later. *)
Lemma retry_loop_backoff k : forall fuel attempt w,
  (k < fuel)%nat ->
  attempt + Z.of_nat fuel = max_retries ->
  0 <= attempt ->
  schedule_accepted (attempt + Z.of_nat k + 1) initial_delay ->
  fails_retriably E w k ->
  exists w',
    retry_loop E max_retries initial_delay fuel attempt w
    = retry_loop E max_retries initial_delay (fuel - k)
        (attempt + Z.of_nat k) w' /\
    calls w' = (calls w + k)%nat /\
    sleeps w' = sleeps w ++ delays initial_delay attempt k /\
    files w' = files w /\
    exists lines, stdout w' = stdout w ++ lines /\ Forall is_PrintRetry lines.
Proof.
  induction k as [| k IH]; intros fuel attempt w Hk Hmax Hatt Hsched Hfail.
  - exists w. rewrite Nat.sub_0_r, Z.add_0_r, Nat.add_0_r.
    unfold delays. simpl. rewrite !app_nil_r.
    repeat split; try reflexivity.
    exists []. rewrite app_nil_r. split; [reflexivity | constructor].
  - destruct fuel as [| fuel]; [lia |].
    destruct (Hfail O ltac:(lia)) as (e & Hcall & Hret).
    rewrite Nat.add_0_r in Hcall.
    rewrite (retry_loop_retry E max_retries initial_delay fuel attempt w e)
      by (try assumption; try lia;
          apply (schedule_accepted_delay _ _ _ Hsched); lia).
    set (w1 := slept_for _ _).
    destruct (IH fuel (attempt + 1) w1) as (w' & Hrun & Hc & Hs & Hf & lines & Hout & Hlines).
    + lia.
    + lia.
    + lia.
    + replace (attempt + 1 + Z.of_nat k + 1)
        with (attempt + Z.of_nat (S k) + 1) by lia. exact Hsched.
    + intros i Hi. destruct (Hfail (S i) ltac:(lia)) as (e' & Hcall' & Hret').
      exists e'. split; [| assumption].
      subst w1. simpl. rewrite <- Hcall'. f_equal. lia.
    + exists w'. rewrite Hrun. simpl Nat.sub.
      replace (attempt + 1 + Z.of_nat k) with (attempt + Z.of_nat (S k)) by lia.
      split; [reflexivity |]. split; [subst w1; simpl in Hc; lia |].
      split; [rewrite Hs, delays_S; subst w1; simpl; rewrite <- app_assoc; reflexivity |].
      split; [rewrite Hf; reflexivity |].
      exists (PrintRetry (attempt + 1) max_retries e
                (initial_delay * backoff_multiplier ^ attempt) :: lines).
      split; [rewrite Hout; subst w1; simpl; rewrite <- app_assoc; reflexivity |].
      constructor; [exact I | assumption].
Qed.

End Backoff.

(** Case analysis on an iteration of the loop: the run is rewritten and the
    facts of the case are left in the context. *)
Ltac retry_loop_case E max_retries initial_delay fuel attempt w :=
  let e := fresh "e" in
  let r := fresh "r" in
  let e' := fresh "e'" in
  let w' := fresh "w'" in
  let Hcall := fresh "Hcall" in
  let Hret := fresh "Hret" in
  let Hatt := fresh "Hatt" in
  let Hdelay := fresh "Hdelay" in
  let Hrun := fresh "Hrun" in
  let Hw' := fresh "Hw'" in
  let Hclass := fresh "Hclass" in
  destruct (retry_loop_cases E max_retries initial_delay fuel attempt w)
    as [(r & Hcall & Hrun)
       | [(e & Hcall & Hret & Hrun)
         | [(e & Hcall & Hret & Hatt & Hrun)
           | [(e & Hcall & Hret & Hatt & Hdelay & e' & w' & Hrun & Hw' & Hclass)
             | (e & Hcall & Hret & Hatt & Hdelay & Hrun)]]]];
  rewrite Hrun.

(** Whatever the service does, the delays slept by one invocation are an
    initial segment of the schedule, and the last attempt is never followed
    by a sleep. *)
Lemma retry_loop_sleeps E max_retries initial_delay fuel :
  forall attempt w,
    attempt + Z.of_nat fuel = max_retries ->
    exists j, (j <= pred fuel)%nat /\
      sleeps (snd (retry_loop E max_retries initial_delay fuel attempt w))
      = sleeps w ++ delays initial_delay attempt j.
Proof.
  induction fuel as [| fuel IH]; intros attempt w Hmax.
  - exists O. split; [lia |]. simpl. now rewrite delays_0, app_nil_r.
  - retry_loop_case E max_retries initial_delay fuel attempt w.
    1-3: exists O; split; [lia |]; simpl; now rewrite delays_0, app_nil_r.
    + exists O. split; [lia |]. rewrite delays_0, app_nil_r.
      destruct Hw' as [-> | ->]; reflexivity.
    + destruct (IH (attempt + 1)
                  (slept_for (initial_delay * backoff_multiplier ^ attempt)
                     (printed (PrintRetry (attempt + 1) max_retries e
                        (initial_delay * backoff_multiplier ^ attempt))
                        (called w))))
        as (j & Hj & Hs); [lia |].
      exists (S j). split; [lia |].
      rewrite Hs, delays_S. simpl. now rewrite <- app_assoc.
Qed.

Lemma delays_from_0 initial_delay k :
  delays initial_delay 0 k
  = map (fun i => initial_delay * backoff_multiplier ^ Z.of_nat i) (seq 0 k).
Proof. unfold delays. apply map_ext. intros i. now rewrite Z.add_0_l. Qed.

(** The run in which every attempt fails with a retriable error and every
    delay is slept. *)
Lemma exhausted_run E max_retries initial_delay w :
  0 < max_retries ->
  schedule_accepted max_retries initial_delay ->
  fails_retriably E w (Z.to_nat max_retries) ->
  exists e w1,
    generate_content_with_retry E max_retries initial_delay w
    = (Raise e, printed (PrintRetryFailed max_retries) (called w1)) /\
    calls w1 = (calls w + pred (Z.to_nat max_retries))%nat /\
    sleeps w1 = sleeps w ++ delays initial_delay 0 (pred (Z.to_nat max_retries)) /\
    models_generate_content E (calls w1) = Raise e /\
    is_retriable_error (exn_str e) = true.
Proof.
  intros Hmax Hsched Hfail. unfold generate_content_with_retry.
  destruct (Z.to_nat max_retries) as [| k] eqn:Hk; [lia |].
  destruct (retry_loop_backoff E max_retries initial_delay k (S k) 0 w)
    as (w1 & Hrun & Hc & Hs & _ & _); [lia | lia | lia | | |].
  { replace (0 + Z.of_nat k + 1) with max_retries by lia. exact Hsched. }
  { intros i Hi. apply Hfail. lia. }
  destruct (Hfail k ltac:(lia)) as (e & Hcall & Hret).
  rewrite <- Hc in Hcall.
  rewrite Hrun. replace (S k - k)%nat with 1%nat by lia.
  rewrite (retry_loop_exhausted E max_retries initial_delay O _ w1 e)
    by (try assumption; lia).
  exists e, w1. simpl pred. auto.
Qed.

(** The call counter never goes back, and an iteration that runs calls. *)
Lemma retry_loop_calls E max_retries initial_delay fuel : forall attempt w,
  (calls w + (if fuel is O then 0 else 1)
   <= calls (snd (retry_loop E max_retries initial_delay fuel attempt w)))%nat.
Proof.
  induction fuel as [| fuel IH]; intros attempt w; [simpl; lia |].
  retry_loop_case E max_retries initial_delay fuel attempt w.
  1-3: simpl; lia.
  - destruct Hw' as [-> | ->]; simpl; lia.
  - match goal with
    | |- context [retry_loop _ _ _ _ ?a ?w1] => specialize (IH a w1)
    end.
    simpl in IH |- *. destruct fuel; lia.
Qed.

(** A call of the run that fails fatally is the last one. *)
Lemma retry_loop_fatal_call E max_retries initial_delay fuel :
  forall attempt w n e,
    let run := retry_loop E max_retries initial_delay fuel attempt w in
    (calls w <= n < calls (snd run))%nat ->
    models_generate_content E n = Raise e ->
    is_retriable_error (exn_str e) = false ->
    fst run = Raise e /\
    calls (snd run) = S n /\
    sleeps (snd run) = sleeps w ++ delays initial_delay attempt (n - calls w) /\
    last (stdout (snd run)) = Some (PrintFatal e).
Proof.
  induction fuel as [| fuel IH]; intros attempt w n e; cbv zeta;
    [simpl; lia |].
  retry_loop_case E max_retries initial_delay fuel attempt w.
  - simpl. intros Hn Hn' _. assert (n = calls w) as -> by lia. congruence.
  - simpl. intros Hn Hn' _. assert (n = calls w) as -> by lia.
    assert (e0 = e) as -> by congruence.
    rewrite Nat.sub_diag, delays_0, app_nil_r.
    repeat split. apply last_snoc.
  - simpl. intros Hn Hn' Hf. assert (n = calls w) as -> by lia. congruence.
  - intros Hn Hn' Hf. assert (n = calls w) as ->
      by (destruct Hw' as [-> | ->]; simpl in Hn; lia).
    congruence.
  - intros Hn Hn' Hf.
    destruct (Nat.eq_dec n (calls w)) as [-> | Hne]; [congruence |].
    match type of Hn with
    | context [retry_loop _ _ _ _ ?a ?w1] =>
      destruct (IH a w1 n e) as (Hres & Hc & Hs & Hlast);
        [simpl in Hn |- *; lia | assumption | assumption |]
    end.
    split; [exact Hres |]. split; [exact Hc |]. split; [| exact Hlast].
    rewrite Hs. simpl sleeps. simpl calls.
    replace (n - calls w)%nat with (S (n - S (calls w))) by lia.
    rewrite delays_S, <- app_assoc. reflexivity.
Qed.

(** ** The retrying invoker *)

Section Invoker.

Variable E : Env.
Variables max_retries initial_delay : Z.


(** C4, as the code has it.  When the first [k < max_retries] attempts fail
    with a retriable error, the [k] delays that follow them are ones
    [time.sleep] sleeps for, and the next attempt succeeds, the invoker
    returns that response after exactly [k] sleeps, the [i]-th of them
    (from 0) lasting [initial_delay * backoff_multiplier ^ i]. *)
Theorem retry_then_success w (k : nat) r :
  Z.of_nat k < max_retries ->
  schedule_accepted (Z.of_nat k + 1) initial_delay ->
  fails_retriably E w k ->
  models_generate_content E (calls w + k) = Return r ->
  exists w',
    generate_content_with_retry E max_retries initial_delay w
    = (Return (Some r), w') /\
    sleeps w'
    = sleeps w ++
      map (fun i => initial_delay * backoff_multiplier ^ Z.of_nat i) (seq 0 k) /\
    calls w' = (calls w + k + 1)%nat.
Proof.
  intros Hk Hsched Hfail Hcall. unfold generate_content_with_retry.
  destruct (retry_loop_backoff E max_retries initial_delay k
              (Z.to_nat max_retries) 0 w)
    as (w1 & Hrun & Hc & Hs & _ & _);
    [lia | lia | lia | exact Hsched | assumption |].
  rewrite Hrun. rewrite <- Hc in Hcall.
  destruct (Z.to_nat max_retries - k)%nat as [| fuel] eqn:Hfuel; [lia |].
  rewrite (retry_loop_success E max_retries initial_delay fuel _ w1 r Hcall).
  exists (called w1). repeat split.
  - simpl. rewrite Hs, delays_from_0. reflexivity.
  - simpl. lia.
Qed.

(** C5.  A fatal error ends the invocation at once, on whatever attempt it
    occurs and whatever the policy: when a remote call the invocation makes
    (call [n] of the run) fails with an error that is not retriable, that
    error is raised, the call is the last one made, the delays slept are
    those before it and none after, and the last line printed is
    "[Fatal API Error]".  On the first attempt: one call, nothing slept. *)
Theorem fatal_error_stops w n e :
  let run := generate_content_with_retry E max_retries initial_delay w in
  models_generate_content E n = Raise e ->
  is_retriable_error (exn_str e) = false ->
  ((calls w <= n < calls (snd run))%nat ->
   fst run = Raise e /\
   calls (snd run) = S n /\
   sleeps (snd run) = sleeps w ++ delays initial_delay 0 (n - calls w) /\
   last (stdout (snd run)) = Some (PrintFatal e)) /\
  (n = calls w -> 0 < max_retries ->
   run = (Raise e, printed (PrintFatal e) (called w))).
Proof.
  intros run Hcall Hfatal. subst run. split.
  - intros Hn. unfold generate_content_with_retry in *.
    now apply retry_loop_fatal_call.
  - intros -> Hmax. unfold generate_content_with_retry.
    destruct (Z.to_nat max_retries) as [| fuel] eqn:Hfuel; [lia |].
    now apply retry_loop_fatal.
Qed.

(** C6, as the code has it.  With [max_retries <= 0] the loop body never
    runs: no remote call, no sleep, nothing printed, nothing raised; the
    invoker returns [None]. *)
Theorem nonpositive_max_retries_returns_None w :
  max_retries <= 0 ->
  generate_content_with_retry E max_retries initial_delay w = (Return None, w).
Proof.
  intros Hmax. unfold generate_content_with_retry.
  replace (Z.to_nat max_retries) with O by lia. reflexivity.
Qed.

End Invoker.

(** ** Total time slept *)

(** C9, as the code has it.  No sleep follows the last attempt, so one
    invocation sleeps at most
    [initial_delay * (backoff_multiplier ^ (max_retries - 1) - 1) /
     (backoff_multiplier - 1)]
    in total, whatever the service answers; the bound is reached when every
    attempt fails with a retriable error and every delay of the schedule is
    one [time.sleep] sleeps for; with the defaults it is 30. *)
Theorem total_sleep_bound E max_retries initial_delay w :
  0 < max_retries ->
  0 <= initial_delay ->
  let run := generate_content_with_retry E max_retries initial_delay w in
  let bound :=
    initial_delay * (backoff_multiplier ^ (max_retries - 1) - 1)
    / (backoff_multiplier - 1) in
  slept (snd run) - slept w <= bound /\
  (schedule_accepted max_retries initial_delay ->
   fails_retriably E w (Z.to_nat max_retries) ->
   slept (snd run) - slept w = bound) /\
  INITIAL_DELAY * (backoff_multiplier ^ (MAX_RETRIES - 1) - 1)
  / (backoff_multiplier - 1) = 30.
Proof.
  intros Hmax Hinit run bound.
  assert (Hbound : bound = initial_delay * (2 ^ (max_retries - 1) - 1)).
  { subst bound. unfold backoff_multiplier.
    change (2 - 1) with 1. now rewrite Z.div_1_r. }
  split; [| split].
  - destruct (retry_loop_sleeps E max_retries initial_delay
                (Z.to_nat max_retries) 0 w) as (j & Hj & Hs); [lia |].
    fold (generate_content_with_retry E max_retries initial_delay w) in Hs.
    fold run in Hs. unfold slept. rewrite Hs, sum_app, sum_delays by lia.
    rewrite Hbound. unfold backoff_multiplier. rewrite Z.pow_0_r.
    assert (2 ^ Z.of_nat j <= 2 ^ (max_retries - 1))
      by (apply Z.pow_le_mono_r; lia).
    nia.
  - intros Hsched Hfail.
    destruct (exhausted_run E max_retries initial_delay w Hmax Hsched Hfail)
      as (e & w1 & Hrun & _ & Hs & _ & _).
    subst run. rewrite Hrun. unfold slept. simpl.
    rewrite Hs, sum_app, sum_delays by lia.
    rewrite Hbound. unfold backoff_multiplier. rewrite Z.pow_0_r.
    replace (Z.of_nat (pred (Z.to_nat max_retries))) with (max_retries - 1) by lia.
    lia.
  - reflexivity.
Qed.

(** ** Classification of errors *)

Lemma prefix_app (needle : string) : forall hay,
  String.prefix needle hay = true <-> exists post, hay = needle +:+ post.
Proof.
  induction needle as [| a needle IH]; intros hay.
  - split; [intros _; exists hay; reflexivity | destruct hay; reflexivity].
  - destruct hay as [| b hay]; simpl.
    + split; [discriminate | intros (post & Hpost); discriminate].
    + destruct (ascii_dec a b) as [-> | Hne].
      * rewrite IH. split; intros (post & Hpost); exists post.
        -- simpl. now rewrite Hpost.
        -- simpl in Hpost. now inversion Hpost.
      * split; [discriminate |].
        intros (post & Hpost). simpl in Hpost. inversion Hpost. congruence.
Qed.

Lemma contains_unfold needle hay :
  contains needle hay
  = String.prefix needle hay ||
    match hay with
    | EmptyString => false
    | String _ hay' => contains needle hay'
    end.
Proof. destruct hay; reflexivity. Qed.

(** [contains] is Python's substring test. *)
Lemma contains_spec needle hay :
  contains needle hay = true <->
  exists pre post, hay = pre +:+ needle +:+ post.
Proof.
  split.
  - induction hay as [| c hay IH]; rewrite contains_unfold, orb_true_iff.
    + intros [Hp | Hf]; [| discriminate].
      apply prefix_app in Hp as (post & ->). exists EmptyString, post. reflexivity.
    + intros [Hp | Hc].
      * apply prefix_app in Hp as (post & ->). exists EmptyString, post. reflexivity.
      * destruct (IH Hc) as (pre & post & ->).
        exists (String c pre), post. reflexivity.
  - intros (pre & post & ->). induction pre as [| c pre IH].
    + rewrite contains_unfold, orb_true_iff. left.
      apply prefix_app. exists post. reflexivity.
    + rewrite contains_unfold, orb_true_iff. right. exact IH.
Qed.

Lemma is_retriable_error_spec error_message :
  is_retriable_error error_message = true <->
  exists marker, In marker retriable_markers /\
    exists pre post, error_message = pre +:+ marker +:+ post.
Proof.
  unfold is_retriable_error, retriable_markers.
  rewrite !orb_true_iff, !contains_spec. simpl In. split.
  - intros [[[[[H | H] | H] | H] | H] | H]; eauto 10.
  - intros (marker & Hin & Hsub).
    repeat (destruct Hin as [<- | Hin]; [tauto |]). destruct Hin.
Qed.

(** C10, as the code has it.  An error raised by the remote call is
    classified by its text alone: it is retriable exactly when [str(e)]
    holds one of the six markers as a substring.  So an error holding a
    marker anywhere is retried when attempts remain and the delay is one
    [time.sleep] sleeps for (it is slept on and a second call is made), and
    an error holding none is raised on the attempt it occurs, after a single
    call when that is the first. *)
Theorem classification_by_substring E max_retries initial_delay w e :
  models_generate_content E (calls w) = Raise e ->
  (is_retriable_error (exn_str e) = true <->
   exists marker, In marker retriable_markers /\
     exists pre post, exn_str e = pre +:+ marker +:+ post) /\
  (is_retriable_error (exn_str e) = true ->
   1 < max_retries -> sleep_accepts initial_delay ->
   let w' := snd (generate_content_with_retry E max_retries initial_delay w) in
   (calls w + 2 <= calls w')%nat /\
   exists rest, sleeps w' = sleeps w ++ initial_delay :: rest) /\
  (is_retriable_error (exn_str e) = false ->
   0 < max_retries ->
   generate_content_with_retry E max_retries initial_delay w
   = (Raise e, printed (PrintFatal e) (called w))).
Proof.
  intros Hcall. split; [apply is_retriable_error_spec | split].
  - intros Hret Hmax Hinit w'. subst w'. unfold generate_content_with_retry.
    destruct (Z.to_nat max_retries) as [| [| fuel]] eqn:Hfuel; [lia | lia |].
    rewrite (retry_loop_retry E max_retries initial_delay (S fuel) 0 w e)
      by (try assumption; try lia;
          unfold backoff_multiplier; now rewrite Z.pow_0_r, Z.mul_1_r).
    set (w1 := slept_for _ _). split.
    + pose proof (retry_loop_calls E max_retries initial_delay (S fuel) (0 + 1) w1) as Hc.
      subst w1. simpl in Hc |- *. lia.
    + destruct (retry_loop_sleeps E max_retries initial_delay (S fuel) (0 + 1) w1)
        as (j & _ & Hs); [lia |].
      rewrite Hs. subst w1. simpl. unfold backoff_multiplier.
      rewrite Z.pow_0_r, Z.mul_1_r, <- app_assoc. eauto.
  - intros Hfatal Hmax. unfold generate_content_with_retry.
    destruct (Z.to_nat max_retries) as [| fuel] eqn:Hfuel; [lia |].
    apply retry_loop_fatal; assumption.
Qed.

(** ** Processing one item *)

Lemma item_steps_refl w : item_steps w w.
Proof.
  split; [reflexivity |]. exists []. now rewrite app_nil_r.
Qed.

Lemma item_steps_trans w1 w2 w3 :
  item_steps w1 w2 -> item_steps w2 w3 -> item_steps w1 w3.
Proof.
  intros (Hf1 & l1 & Ho1 & Hl1) (Hf2 & l2 & Ho2 & Hl2). split; [congruence |].
  exists (l1 ++ l2). rewrite Ho2, Ho1, app_assoc. split; [reflexivity |].
  apply Forall_app; auto.
Qed.

Lemma item_steps_printed ev w : item_line ev -> item_steps w (printed ev w).
Proof.
  intros Hev. split; [reflexivity |]. exists [ev]. split; [reflexivity |].
  repeat constructor; assumption.
Qed.

Lemma item_steps_called w : item_steps w (called w).
Proof. split; [reflexivity |]. exists []. simpl. now rewrite app_nil_r. Qed.

Lemma item_steps_slept_for d w : item_steps w (slept_for d w).
Proof. split; [reflexivity |]. exists []. simpl. now rewrite app_nil_r. Qed.

Create HintDb item.
#[local] Hint Resolve item_steps_refl item_steps_printed item_steps_called
  item_steps_slept_for : item.
#[local] Hint Extern 1 (item_line _) => exact I : item.

Lemma attempted_app l1 l2 : attempted (l1 ++ l2) = attempted l1 ++ attempted l2.
Proof.
  induction l1 as [| ev l1 IH]; [reflexivity |].
  destruct ev; simpl; rewrite IH; reflexivity.
Qed.

Lemma skipped_app l1 l2 : skipped (l1 ++ l2) = (skipped l1 + skipped l2)%nat.
Proof.
  induction l1 as [| ev l1 IH]; [reflexivity |].
  destruct ev; simpl; rewrite IH; reflexivity.
Qed.

Lemma item_lines_silent lines :
  Forall item_line lines -> attempted lines = [] /\ skipped lines = O.
Proof.
  induction 1 as [| ev lines Hev _ [IHa IHs]]; [split; reflexivity |].
  destruct ev; simpl in *; try contradiction; auto.
Qed.

Lemma item_steps_attempted w w' :
  item_steps w w' ->
  attempted (stdout w') = attempted (stdout w) /\
  skipped (stdout w') = skipped (stdout w).
Proof.
  intros (_ & lines & -> & Hlines).
  destruct (item_lines_silent lines Hlines) as [Ha Hs].
  rewrite attempted_app, skipped_app, Ha, Hs, app_nil_r. split; [reflexivity | lia].
Qed.

Section Item.

Variable E : Env.

(** The invoker only takes item steps, and a response it returns is one the
    service sent. *)
Lemma retry_loop_item_steps max_retries initial_delay fuel :
  forall attempt w,
    let run := retry_loop E max_retries initial_delay fuel attempt w in
    item_steps w (snd run) /\
    forall r, fst run = Return (Some r) ->
              exists n, models_generate_content E n = Return r.
Proof.
  induction fuel as [| fuel IH]; intros attempt w; cbv zeta.
  - simpl. split; [auto with item | discriminate].
  - retry_loop_case E max_retries initial_delay fuel attempt w; cbn [fst snd].
    + split; [auto with item |]. intros r' [= <-]. eauto.
    + split; [| discriminate].
      eapply item_steps_trans; [apply item_steps_called |]. auto with item.
    + split; [| discriminate].
      eapply item_steps_trans; [apply item_steps_called |]. auto with item.
    + split; [| discriminate].
      destruct Hw' as [-> | ->]; [apply item_steps_called |].
      eapply item_steps_trans; [apply item_steps_called |]. auto with item.
    + match goal with
      | |- context [retry_loop _ _ _ _ ?a ?w1] =>
        destruct (IH a w1) as [Hsteps Hresp]
      end.
      split; [| exact Hresp].
      eapply item_steps_trans; [| exact Hsteps].
      eapply item_steps_trans; [| apply item_steps_slept_for].
      eapply item_steps_trans; [| apply item_steps_printed; exact I].
      apply item_steps_called.
Qed.

(** [get_bounding_boxes] never raises.  It takes item steps only, and what
    it returns for a path is named after the path and carries the decoded
    text of a response the service sent. *)
Lemma get_bounding_boxes_returns image_file_path w :
  exists o w',
    get_bounding_boxes E image_file_path w = (Return o, w') /\
    item_steps w w' /\
    forall fd, o = Some fd ->
      file_name fd = stem image_file_path /\
      exists n r t,
        models_generate_content E n = Return r /\
        text r = Some t /\
        json_loads E (strip t) = Return (detections fd).
Proof.
  unfold get_bounding_boxes, try_except, get_bounding_boxes_body, bind, lift.
  destruct (genai_Client E) as [client | e].
  2: { do 2 eexists. split; [reflexivity |]. split; [| discriminate].
       unfold print. simpl. auto with item. }
  destruct (os_path_exists E image_file_path); cbn [negb].
  2: { do 2 eexists. split; [reflexivity |]. split; [| discriminate].
       unfold print. simpl. auto with item. }
  destruct (Image_open E image_file_path) as [img | e].
  2: { do 2 eexists. split; [reflexivity |]. split; [| discriminate].
       unfold print. simpl. auto with item. }
  unfold generate_content_with_retry.
  destruct (retry_loop_item_steps MAX_RETRIES INITIAL_DELAY
              (Z.to_nat MAX_RETRIES) 0 w) as [Hsteps Hresp].
  destruct (retry_loop E MAX_RETRIES INITIAL_DELAY (Z.to_nat MAX_RETRIES) 0 w)
    as [[[r |] | e] w1]; simpl in Hsteps, Hresp.
  - destruct (Hresp r eq_refl) as (n & Hn).
    assert (Hsteps2 : exists w2,
               (match usage_metadata r with
                | Some um => print (PrintTokens (total_token_count um))
                | None => ret tt
                end) w1 = (Return tt, w2) /\ item_steps w w2).
    { destruct (usage_metadata r); unfold print, ret; eexists; split;
        try reflexivity; eauto using item_steps_trans with item. }
    destruct Hsteps2 as (w2 & -> & Hw2).
    destruct (text r) as [t |] eqn:Ht; unfold ret, raise.
    + destruct (json_loads E (strip t)) as [v | e] eqn:Hv.
      * do 2 eexists. split; [reflexivity |]. split; [assumption |].
        intros fd [= <-]. simpl. split; [reflexivity |]. eauto 6.
      * do 2 eexists. split; [reflexivity |]. split; [| discriminate].
        unfold print. simpl. eauto using item_steps_trans with item.
    + do 2 eexists. split; [reflexivity |]. split; [| discriminate].
      unfold print. simpl. eauto using item_steps_trans with item.
  - unfold ret, raise. do 2 eexists. split; [reflexivity |].
    split; [| discriminate].
    unfold print. simpl. eauto using item_steps_trans with item.
  - do 2 eexists. split; [reflexivity |]. split; [| discriminate].
    unfold print. simpl. eauto using item_steps_trans with item.
Qed.

End Item.

(** ** The batch loop *)

Section Batch.

Variable E : Env.

(** An item for which nothing came back is skipped and the loop goes on. *)
Lemma process_loop_skip total i image_path rest all_results w w2 :
  get_bounding_boxes E image_path
    (printed (PrintProcessing (i + 1) total image_path) w)
  = (Return None, w2) ->
  process_loop E total i (image_path :: rest) all_results w
  = process_loop E total (i + 1) rest all_results (printed PrintFailedData w2).
Proof.
  intros Hitem. simpl. unfold bind at 1. unfold print at 1.
  unfold bind at 1. rewrite Hitem. reflexivity.
Qed.

(** So is an item whose payload decodes to null. *)
Lemma process_loop_null total i image_path rest all_results w fd w2 :
  get_bounding_boxes E image_path
    (printed (PrintProcessing (i + 1) total image_path) w)
  = (Return (Some fd), w2) ->
  is_None (detections fd) = true ->
  process_loop E total i (image_path :: rest) all_results w
  = process_loop E total (i + 1) rest all_results (printed PrintFailedData w2).
Proof.
  intros Hitem Hnull. simpl. unfold bind at 1. unfold print at 1.
  unfold bind at 1. rewrite Hitem, Hnull. reflexivity.
Qed.

(** An item with a sized payload is appended to the report. *)
Lemma process_loop_keep total i image_path rest all_results w fd w2 n :
  get_bounding_boxes E image_path
    (printed (PrintProcessing (i + 1) total image_path) w)
  = (Return (Some fd), w2) ->
  is_None (detections fd) = false ->
  py_len (detections fd) = Return n ->
  process_loop E total i (image_path :: rest) all_results w
  = process_loop E total (i + 1) rest (all_results ++ [fd])
      (printed (PrintDetected n) w2).
Proof.
  intros Hitem Hnull Hlen. simpl. unfold bind at 1. unfold print at 1.
  unfold bind at 1. rewrite Hitem, Hnull. cbn [negb].
  unfold bind at 1. unfold lift. rewrite Hlen. reflexivity.
Qed.

Hypothesis sized : payloads_sized E.

(** The loop returns; it starts every path, in order; what it appends is,
    in order, named after some of the paths; every path is either appended
    or reported as skipped; it writes no file. *)
Lemma process_loop_report total image_paths : forall i all_results w,
  exists new w',
    process_loop E total i image_paths all_results w
    = (Return (all_results ++ new), w') /\
    map file_name new `sublist_of` map stem image_paths /\
    attempted (stdout w') = attempted (stdout w) ++ image_paths /\
    (skipped (stdout w') + length new
     = skipped (stdout w) + length image_paths)%nat /\
    files w' = files w.
Proof using sized.
  induction image_paths as [| image_path rest IH]; intros i all_results w.
  - exists [], w. simpl. rewrite !app_nil_r. unfold ret.
    repeat split; try reflexivity; constructor.
  - destruct (get_bounding_boxes_returns E image_path
                (printed (PrintProcessing (i + 1) total image_path) w))
      as (o & w2 & Hitem & Hsteps & Hfd).
    destruct (item_steps_attempted _ _ Hsteps) as [Hatt Hskip].
    pose proof (proj1 Hsteps) as Hfiles.
    simpl stdout in Hatt, Hskip. rewrite attempted_app in Hatt.
    rewrite skipped_app in Hskip. simpl in Hatt, Hskip, Hfiles.
    assert (Hskipcase :
      forall w3, w3 = printed PrintFailedData w2 ->
      exists new w',
        process_loop E total (i + 1) rest all_results w3
        = (Return (all_results ++ new), w') /\
        map file_name new `sublist_of` map stem (image_path :: rest) /\
        attempted (stdout w') = attempted (stdout w) ++ image_path :: rest /\
        (skipped (stdout w') + length new
         = skipped (stdout w) + length (image_path :: rest))%nat /\
        files w' = files w).
    { intros w3 ->.
      destruct (IH (i + 1)%nat all_results (printed PrintFailedData w2))
        as (new & w' & Hrun & Hsub & Ha & Hs & Hf).
      exists new, w'. split; [exact Hrun |].
      split; [simpl; now apply sublist_cons |].
      simpl in Ha, Hs, Hf. rewrite attempted_app in Ha. rewrite skipped_app in Hs.
      simpl in Ha, Hs.
      split; [rewrite Ha, Hatt, app_nil_r, <- app_assoc; reflexivity |].
      split; [simpl; lia | congruence]. }
    destruct o as [fd |].
    + destruct (Hfd fd eq_refl) as (Hname & n & r & t & Hn & Ht & Hv).
      destruct (is_None (detections fd)) eqn:Hnull.
      * rewrite (process_loop_null _ _ _ _ _ _ _ _ Hitem Hnull). eauto.
      * destruct (sized n r t _ Hn Ht Hv) as [Hnone | (len & Hlen)];
          [congruence |].
        rewrite (process_loop_keep _ _ _ _ _ _ _ _ _ Hitem Hnull Hlen).
        destruct (IH (i + 1)%nat (all_results ++ [fd])
                    (printed (PrintDetected len) w2))
          as (new & w' & Hrun & Hsub & Ha & Hs & Hf).
        exists (fd :: new), w'.
        split; [rewrite Hrun, <- app_assoc; reflexivity |].
        split; [simpl; rewrite Hname; now apply sublist_skip |].
        simpl in Ha, Hs, Hf. rewrite attempted_app in Ha. rewrite skipped_app in Hs.
        simpl in Ha, Hs.
        split; [rewrite Ha, Hatt, app_nil_r, <- app_assoc; reflexivity |].
        split; [simpl; lia | congruence].
    + rewrite (process_loop_skip _ _ _ _ _ _ _ Hitem). eauto.
Qed.

Lemma collect_results_report image_paths w :
  exists results w',
    collect_results E image_paths w = (Return results, w') /\
    map file_name results `sublist_of` map stem image_paths /\
    attempted (stdout w') = attempted (stdout w) ++ image_paths /\
    (skipped (stdout w') + length results
     = skipped (stdout w) + length image_paths)%nat /\
    files w' = files w.
Proof using sized.
  unfold collect_results, bind at 1. unfold print at 1.
  destruct (process_loop_report (length image_paths) image_paths O []
              (printed (PrintStart (length image_paths)) w))
    as (new & w' & Hrun & Hsub & Ha & Hs & Hf).
  exists new, w'. rewrite Hrun. simpl in Ha, Hs, Hf.
  rewrite attempted_app in Ha. rewrite skipped_app in Hs. simpl in Ha, Hs.
  rewrite app_nil_r in Ha.
  repeat split; try assumption. lia.
Qed.

End Batch.

(** Saving never raises, prints no "Processing:" line, and leaves the report
    in the output file when that file can be opened. *)
Lemma save_results_returns E all_results output_json_file w :
  exists w',
    save_results E all_results output_json_file w = (Return tt, w') /\
    attempted (stdout w') = attempted (stdout w) /\
    (open_w E output_json_file = Return tt ->
     files w' = (output_json_file, all_results) :: files w).
Proof.
  unfold save_results, try_except, bind, lift, json_dump, print.
  destruct (open_w E output_json_file) as [[] | e].
  - destruct (total_detections all_results) as [total | e];
      eexists; (split; [reflexivity |]); simpl;
      rewrite attempted_app, app_nil_r; split; reflexivity.
  - eexists. split; [reflexivity |]. simpl.
    rewrite attempted_app, app_nil_r. split; [reflexivity | discriminate].
Qed.

Lemma process_loop_cons E total i image_path rest all_results w :
  process_loop E total i (image_path :: rest) all_results w
  = match get_bounding_boxes E image_path
            (printed (PrintProcessing (i + 1) total image_path) w) with
    | (Return (Some fd), w2) =>
      if negb (is_None (detections fd))
      then match py_len (detections fd) with
           | Return n =>
             process_loop E total (i + 1) rest (all_results ++ [fd])
               (printed (PrintDetected n) w2)
           | Raise e => (Raise e, w2)
           end
      else process_loop E total (i + 1) rest all_results
             (printed PrintFailedData w2)
    | (Return None, w2) =>
      process_loop E total (i + 1) rest all_results (printed PrintFailedData w2)
    | (Raise e, w2) => (Raise e, w2)
    end.
Proof.
  simpl. unfold bind at 1. unfold print at 1. unfold bind at 1.
  destruct (get_bounding_boxes E image_path _) as [[[fd |] | e] w2];
    try reflexivity.
  destruct (negb (is_None (detections fd))); [| reflexivity].
  unfold bind at 1. unfold lift.
  destruct (py_len (detections fd)); reflexivity.
Qed.

Lemma py_len_raises v e : py_len v = Raise e -> is_no_len e.
Proof.
  unfold is_no_len. destruct v; simpl; intros [= <-]; eauto.
Qed.



(** One iteration, and the loop in terms of it. *)
Lemma process_loop_by_item E total i image_path rest all_results w :
  process_loop E total i (image_path :: rest) all_results w
  = match process_item E total i image_path all_results w with
    | (Return all_results', w') =>
      process_loop E total (i + 1) rest all_results' w'
    | (Raise e, w') => (Raise e, w')
    end.
Proof.
  rewrite process_loop_cons. unfold process_item.
  unfold bind at 1. unfold print at 1. unfold bind at 1.
  destruct (get_bounding_boxes E image_path _) as [[[fd |] | e] w2];
    try reflexivity.
  destruct (negb (is_None (detections fd))); [| reflexivity].
  unfold bind at 1. unfold lift.
  destruct (py_len (detections fd)); reflexivity.
Qed.

Lemma process_item_frame E total i image_path all_results w all_results' w' :
  process_item E total i image_path all_results w = (Return all_results', w') ->
  attempted (stdout w') = attempted (stdout w) ++ [image_path] /\
  files w' = files w.
Proof.
  unfold process_item. unfold bind at 1. unfold print at 1. unfold bind at 1.
  destruct (get_bounding_boxes_returns E image_path
              (printed (PrintProcessing (i + 1) total image_path) w))
    as (o & w2 & Hitem & Hsteps & _).
  rewrite Hitem.
  destruct (item_steps_attempted _ _ Hsteps) as [Hatt _].
  pose proof (proj1 Hsteps) as Hfiles.
  simpl stdout in Hatt. rewrite attempted_app in Hatt. simpl in Hatt, Hfiles.
  assert (Hfailed : forall acc,
    (print PrintFailedData ;;; ret acc)%py w2 = (Return all_results', w') ->
    attempted (stdout w') = attempted (stdout w) ++ [image_path] /\
    files w' = files w).
  { intros acc [= _ <-]. simpl. rewrite attempted_app, app_nil_r.
    split; assumption. }
  destruct o as [fd |]; [| apply Hfailed].
  destruct (negb (is_None (detections fd))); [| apply Hfailed].
  unfold bind at 1. unfold lift.
  destruct (py_len (detections fd)) as [n | e]; [| discriminate].
  intros [= _ <-]. simpl. rewrite attempted_app, app_nil_r.
  split; assumption.
Qed.

(** Without an interrupt the interrupted loop is the loop. *)
Lemma process_loop_not_interrupted E interrupted total image_paths :
  (forall i, interrupted i = false) ->
  forall i all_results w,
    process_loop_interrupted E interrupted total i image_paths all_results w
    = process_loop E total i image_paths all_results w.
Proof.
  intros Hnever.
  induction image_paths as [| image_path rest IH]; intros i all_results w;
    [reflexivity |].
  rewrite process_loop_by_item. simpl. rewrite Hnever. unfold bind.
  destruct (process_item E total i image_path all_results w) as [[acc | e] w'];
    [apply IH | reflexivity].
Qed.

(** ** The batch report *)


(** What the code does contain: an error of the remote call, whether
    retries ran out or it was fatal, stops at the item:
    [get_bounding_boxes] never raises, and when the invoker raises it
    reports the item as skipped and returns [None]; the loop then goes on
    with the next item exactly as after any other item; and the whole run
    returns normally having started every item, in order, given that no
    successful payload is a bare number or boolean. *)
Theorem item_errors_stay_at_item_boundary E image_paths output_json_file w :
  (forall image_path w1,
     exists o w2, get_bounding_boxes E image_path w1 = (Return o, w2)) /\
  (forall image_path w1 e w2,
     genai_Client E = Return tt ->
     os_path_exists E image_path = true ->
     Image_open E image_path = Return tt ->
     generate_content_with_retry E MAX_RETRIES INITIAL_DELAY w1 = (Raise e, w2) ->
     get_bounding_boxes E image_path w1
     = (Return None, printed (PrintSkipping image_path e) w2)) /\
  (forall total i image_path rest all_results w1 w2,
     get_bounding_boxes E image_path
       (printed (PrintProcessing (i + 1) total image_path) w1)
     = (Return None, w2) ->
     process_loop E total i (image_path :: rest) all_results w1
     = process_loop E total (i + 1) rest all_results
         (printed PrintFailedData w2)) /\
  (payloads_sized E ->
   exists w',
     process_multiple_images E image_paths output_json_file w = (Return tt, w') /\
     attempted (stdout w') = attempted (stdout w) ++ image_paths).
Proof.
  split; [| split; [| split]].
  - intros image_path w1.
    destruct (get_bounding_boxes_returns E image_path w1) as (o & w2 & Hrun & _).
    eauto.
  - intros image_path w1 e w2 Hclient Hexists Himg Hrun.
    unfold get_bounding_boxes, try_except, get_bounding_boxes_body, bind, lift.
    rewrite Hclient, Hexists, Himg. cbn [negb]. rewrite Hrun. reflexivity.
  - intros total i image_path rest all_results w1 w2.
    apply process_loop_skip.
  - intros Hsized.
    destruct (collect_results_report E Hsized image_paths w)
      as (results & w' & Hrun & _ & Hatt & _ & _).
    unfold process_multiple_images, bind. rewrite Hrun.
    destruct (save_results_returns E results output_json_file w')
      as (w'' & -> & Hatt' & _).
    exists w''. split; [reflexivity | congruence].
Qed.

(** C7, as the code has it.  The script has no cancellation signal of its
    own; interrupting the process is the one way to stop it.  When the
    interrupt arrives after item A is over and before item B starts, no new
    item is started: B, C and D are never attempted.  But no partial report
    comes back: the interrupt leaves [process_multiple_images], the output
    file is not written and what A gave is lost.  Without an interrupt the
    run is the run of [process_multiple_images]. *)
Theorem interrupt_discards_the_report E interrupted A B C D
    output_json_file w all_results wA :
  interrupted O = false ->
  interrupted 1%nat = true ->
  process_item E 4 0 A [] (printed (PrintStart 4) w) = (Return all_results, wA) ->
  process_multiple_images_interrupted E interrupted [A; B; C; D]
    output_json_file w
  = (Raise KeyboardInterrupt, wA) /\
  attempted (stdout wA) = attempted (stdout w) ++ [A] /\
  files wA = files w /\
  forall never image_paths,
    (forall i, never i = false) ->
    process_multiple_images_interrupted E never image_paths output_json_file w
    = process_multiple_images E image_paths output_json_file w.
Proof.
  intros Hfirst Hsecond HA.
  destruct (process_item_frame _ _ _ _ _ _ _ _ HA) as [Hatt Hfiles].
  simpl in Hatt, Hfiles. rewrite attempted_app, app_nil_r in Hatt.
  split; [| split; [exact Hatt | split; [exact Hfiles |]]].
  - unfold process_multiple_images_interrupted.
    unfold bind at 1. unfold print at 1. simpl length.
    unfold bind at 1. simpl process_loop_interrupted.
    rewrite Hfirst. unfold bind at 1. rewrite HA.
    change (0 + 1)%nat with 1%nat. rewrite Hsecond. reflexivity.
  - intros never image_paths Hnever.
    unfold process_multiple_images_interrupted, process_multiple_images,
      collect_results.
    unfold bind at 1. unfold print at 1. unfold bind at 1.
    rewrite (process_loop_not_interrupted E never _ _ Hnever).
    unfold bind at 1. unfold bind at 1. unfold print at 1. reflexivity.
Qed.

(** C8, as the code has it.  The report keeps input order but holds the
    succeeded items only: the names of its entries are, in order, names of
    input items.  For [A; B; C] where B fails and A and C succeed the report
    is A's entry followed by C's entry. *)
Theorem results_in_input_order E image_paths w :
  payloads_sized E ->
  (exists results w',
     collect_results E image_paths w = (Return results, w') /\
     map file_name results `sublist_of` map stem image_paths) /\
  (forall A B C fdA fdC nA nC wA wB wC,
     get_bounding_boxes E A
       (printed (PrintProcessing 1 3 A) (printed (PrintStart 3) w))
     = (Return (Some fdA), wA) ->
     is_None (detections fdA) = false ->
     py_len (detections fdA) = Return nA ->
     get_bounding_boxes E B
       (printed (PrintProcessing 2 3 B) (printed (PrintDetected nA) wA))
     = (Return None, wB) ->
     get_bounding_boxes E C
       (printed (PrintProcessing 3 3 C) (printed PrintFailedData wB))
     = (Return (Some fdC), wC) ->
     is_None (detections fdC) = false ->
     py_len (detections fdC) = Return nC ->
     collect_results E [A; B; C] w
     = (Return [fdA; fdC], printed (PrintDetected nC) wC)).
Proof.
  intros Hsized. split.
  - destruct (collect_results_report E Hsized image_paths w)
      as (results & w' & Hrun & Hsub & _).
    eauto.
  - intros A B C fdA fdC nA nC wA wB wC HA HnullA HlenA HB HC HnullC HlenC.
    unfold collect_results, bind at 1. unfold print at 1. simpl length.
    rewrite (process_loop_keep E 3 0 A [B; C] [] _ fdA wA nA HA HnullA HlenA).
    rewrite (process_loop_skip E 3 1 B [C] _ _ wB HB).
    rewrite (process_loop_keep E 3 2 C [] _ _ fdC wC nC HC HnullC HlenC).
    reflexivity.
Qed.

(** ** Concrete runs *)

Import Fixtures.

Lemma quota_forever_fails w k : fails_retriably quota_forever w k.
Proof.
  intros i _. exists quota. split; [| reflexivity].
  simpl. destruct (calls w + i)%nat; reflexivity.
Qed.

Lemma scripted_payloads_sized script :
  Forall (fun r => forall resp, r = Return resp -> resp = empty_list_response)
         script ->
  payloads_sized (scripted script (Return empty_list_response)).
Proof.
  intros Hscript n r t v Hn Ht Hv. simpl in Hn, Hv.
  assert (r = empty_list_response) as ->.
  { destruct (nth_in_or_default n script (Return empty_list_response))
      as [Hin | Hdef].
    - rewrite List.Forall_forall in Hscript. apply (Hscript _ Hin). exact Hn.
    - rewrite Hdef in Hn. congruence. }
  simpl in Ht. injection Ht as <-. vm_compute in Hv. injection Hv as <-.
  right. exists O. reflexivity.
Qed.

Lemma default_schedule_accepted : schedule_accepted MAX_RETRIES INITIAL_DELAY.
Proof. split; vm_compute; discriminate. Qed.



Lemma retry_then_success_witness :
  exists w',
    generate_content_with_retry
      (scripted [Raise quota; Raise quota] (Return empty_list_response))
      MAX_RETRIES INITIAL_DELAY w0
    = (Return (Some empty_list_response), w') /\
    sleeps w' = [2; 4] /\
    calls w' = 3%nat.
Proof.
  apply (retry_then_success
           (scripted [Raise quota; Raise quota] (Return empty_list_response))
           MAX_RETRIES INITIAL_DELAY w0 2 empty_list_response).
  - reflexivity.
  - split; vm_compute; discriminate.
  - intros i Hi. exists quota. split; [| reflexivity].
    destruct i as [| [| i]]; [reflexivity | reflexivity | lia].
  - reflexivity.
Defined.

(** C4 fails on the code: one retriable failure, then a call that would
    succeed, with a first delay of [10 ** 10] seconds: the invoker does not
    return the response; [time.sleep] raises and the second call is never
    made. *)
Lemma huge_delay_prevents_the_retry :
  let run := generate_content_with_retry quota_once 2 HUGE_DELAY w0 in
  fails_retriably quota_once w0 1 /\
  models_generate_content quota_once (calls w0 + 1) = Return empty_list_response /\
  fst run
  = Raise (mkExn "OverflowError"
                 "timestamp too large to convert to C _PyTime_t") /\
  calls (snd run) = 1%nat /\
  sleeps (snd run) = [] /\
  ~ exists w', run = (Return (Some empty_list_response), w').
Proof.
  split.
  { intros i Hi. exists quota. split; [| reflexivity].
    destruct i as [| i]; [reflexivity | lia]. }
  split; [reflexivity |]. split; [vm_compute; reflexivity |].
  split; [vm_compute; reflexivity |]. split; [vm_compute; reflexivity |].
  intros (w' & Hrun). vm_compute in Hrun. discriminate.
Qed.

Lemma fatal_error_stops_witness :
  let run :=
    generate_content_with_retry
      (scripted [Raise quota; Raise bad_request] (Return empty_list_response))
      MAX_RETRIES INITIAL_DELAY w0 in
  fst run = Raise bad_request /\
  calls (snd run) = 2%nat /\
  sleeps (snd run) = [2] /\
  last (stdout (snd run)) = Some (PrintFatal bad_request).
Proof.
  destruct (fatal_error_stops
              (scripted [Raise quota; Raise bad_request]
                        (Return empty_list_response))
              MAX_RETRIES INITIAL_DELAY w0 1 bad_request eq_refl eq_refl)
    as [Hany _].
  apply Hany. vm_compute. lia.
Defined.

(** A fatal error on the first attempt: one call, no sleep. *)
Example fatal_on_first_attempt :
  generate_content_with_retry
    (scripted [Raise bad_request] (Return empty_list_response))
    MAX_RETRIES INITIAL_DELAY w0
  = (Raise bad_request,
     {| calls := 1; sleeps := []; stdout := [PrintFatal bad_request];
        files := [] |}).
Proof. reflexivity. Qed.

Lemma nonpositive_max_retries_returns_None_witness :
  generate_content_with_retry quota_forever 0 INITIAL_DELAY w0
  = (Return None, w0).
Proof.
  apply (nonpositive_max_retries_returns_None quota_forever 0 INITIAL_DELAY w0).
  discriminate.
Defined.

(** C6 fails on the code: with [max_retries = 0] nothing is raised. *)
Lemma max_retries_zero_raises_nothing :
  ~ exists e w',
      generate_content_with_retry quota_forever 0 INITIAL_DELAY w0
      = (Raise e, w').
Proof. intros (e & w' & Hrun). vm_compute in Hrun. discriminate. Qed.

Lemma total_sleep_bound_witness :
  slept (snd (generate_content_with_retry quota_forever MAX_RETRIES
                INITIAL_DELAY w0)) - slept w0
  = 30.
Proof.
  destruct (total_sleep_bound quota_forever MAX_RETRIES INITIAL_DELAY w0)
    as (_ & Hreached & Hdefault).
  - reflexivity.
  - discriminate.
  - rewrite <- Hdefault. apply Hreached.
    + split; vm_compute; discriminate.
    + apply quota_forever_fails.
Defined.

(** C9 fails on the code: with the defaults and every attempt failing with a
    retriable error, the time slept is not the 62 seconds of the formula. *)
Lemma default_worst_case_wait_is_not_62 :
  fails_retriably quota_forever w0 (Z.to_nat MAX_RETRIES) /\
  INITIAL_DELAY * (backoff_multiplier ^ MAX_RETRIES - 1)
  / (backoff_multiplier - 1) = 62 /\
  slept (snd (generate_content_with_retry quota_forever MAX_RETRIES
                INITIAL_DELAY w0)) - slept w0
  <> INITIAL_DELAY * (backoff_multiplier ^ MAX_RETRIES - 1)
     / (backoff_multiplier - 1).
Proof.
  split; [apply quota_forever_fails |]. split; [reflexivity |].
  vm_compute. discriminate.
Qed.

Lemma classification_by_substring_witness :
  let E := scripted [Raise path_with_429] (Return empty_list_response) in
  let w' := snd (generate_content_with_retry E MAX_RETRIES INITIAL_DELAY w0) in
  (calls w0 + 2 <= calls w')%nat /\
  exists rest, sleeps w' = sleeps w0 ++ INITIAL_DELAY :: rest.
Proof.
  intros E.
  destruct (classification_by_substring E MAX_RETRIES INITIAL_DELAY w0
              path_with_429 eq_refl) as (_ & Hretried & _).
  apply Hretried.
  - reflexivity.
  - reflexivity.
  - split; vm_compute; discriminate.
Defined.

(** C10 fails on the code: an error whose text holds "429" is raised with
    four attempts left, yet it is not retried when the delay is [10 ** 10]
    seconds: one call is made and [time.sleep] raises. *)
Lemma marker_in_text_is_not_always_retried :
  let E := scripted [Raise path_with_429] (Return empty_list_response) in
  let run := generate_content_with_retry E MAX_RETRIES HUGE_DELAY w0 in
  models_generate_content E (calls w0) = Raise path_with_429 /\
  is_retriable_error (exn_str path_with_429) = true /\
  calls (snd run) = 1%nat /\
  sleeps (snd run) = [] /\
  fst run
  = Raise (mkExn "OverflowError"
                 "timestamp too large to convert to C _PyTime_t").
Proof. repeat split; vm_compute; reflexivity. Qed.

(** A transient error without any marker is fatal on the first attempt. *)
Example connection_reset_is_fatal :
  is_retriable_error (exn_str connection_reset) = false /\
  generate_content_with_retry
    (scripted [Raise connection_reset] (Return empty_list_response))
    MAX_RETRIES INITIAL_DELAY w0
  = (Raise connection_reset,
     {| calls := 1; sleeps := []; stdout := [PrintFatal connection_reset];
        files := [] |}).
Proof. split; reflexivity. Qed.

Lemma second_fatal_sized : payloads_sized second_fatal.
Proof.
  apply scripted_payloads_sized.
  repeat constructor; intros resp [= <-]; reflexivity.
Qed.

Lemma all_ok_sized : payloads_sized all_ok.
Proof. apply scripted_payloads_sized. constructor. Qed.



Lemma item_errors_stay_at_item_boundary_witness :
  exists w',
    process_multiple_images second_fatal
      ["test/A.jpg"; "test/B.jpg"; "test/C.jpg"] OUTPUT_JSON_FILE w0
    = (Return tt, w') /\
    attempted (stdout w')
    = attempted (stdout w0) ++ ["test/A.jpg"; "test/B.jpg"; "test/C.jpg"].
Proof.
  apply (item_errors_stay_at_item_boundary second_fatal
           ["test/A.jpg"; "test/B.jpg"; "test/C.jpg"]
           OUTPUT_JSON_FILE w0).
  apply second_fatal_sized.
Defined.

(** C2, where the code departs from it.  Item A fails for good: its error
    is caught at the item and the loop goes on to B.  B's payload is a bare
    number: it passes the test of line 160, is appended, and [len] at line
    162 raises outside every [try].  The [TypeError] leaves the runner, C is
    never started and no file is written. *)
Theorem failure_then_bare_number_aborts :
  let run :=
    process_multiple_images fatal_then_number
      ["test/A.jpg"; "test/B.jpg"; "test/C.jpg"] OUTPUT_JSON_FILE w0 in
  fst run = Raise (no_len "int") /\
  attempted (stdout (snd run)) = ["test/A.jpg"; "test/B.jpg"] /\
  In (PrintSkipping "test/A.jpg" bad_request) (stdout (snd run)) /\
  files (snd run) = [].
Proof.
  split; [vm_compute; reflexivity |]. split; [vm_compute; reflexivity |].
  split; [| vm_compute; reflexivity].
  vm_compute. right. right. right. left. reflexivity.
Qed.

Lemma interrupt_discards_the_report_witness :
  let first :=
    process_item all_ok 4 0 "test/A.jpg" [] (printed (PrintStart 4) w0) in
  process_multiple_images_interrupted all_ok after_first_item
    ["test/A.jpg"; "test/B.jpg"; "test/C.jpg"; "test/D.jpg"]
    OUTPUT_JSON_FILE w0
  = (Raise KeyboardInterrupt, snd first) /\
  attempted (stdout (snd first)) = attempted (stdout w0) ++ ["test/A.jpg"] /\
  files (snd first) = files w0 /\
  forall never image_paths,
    (forall i, never i = false) ->
    process_multiple_images_interrupted all_ok never image_paths
      OUTPUT_JSON_FILE w0
    = process_multiple_images all_ok image_paths OUTPUT_JSON_FILE w0.
Proof.
  intros first.
  apply (interrupt_discards_the_report all_ok after_first_item
           "test/A.jpg" "test/B.jpg" "test/C.jpg" "test/D.jpg"
           OUTPUT_JSON_FILE w0
           [ {| file_name := "A"; detections := JArr [] |} ] (snd first)).
  - reflexivity.
  - reflexivity.
  - reflexivity.
Defined.

(** C7 fails on the code: on [A; B; C; D], every call succeeding, with the
    interrupt arriving after A is over and before B starts, B, C and D are
    not started, but the run returns no report: the interrupt leaves it and
    nothing is written. *)
Lemma interrupted_run_returns_no_report :
  let run :=
    process_multiple_images_interrupted all_ok after_first_item
      ["test/A.jpg"; "test/B.jpg"; "test/C.jpg"; "test/D.jpg"]
      OUTPUT_JSON_FILE w0 in
  after_first_item 0 = false /\ after_first_item 1 = true /\
  fst run = Raise KeyboardInterrupt /\
  attempted (stdout (snd run)) = ["test/A.jpg"] /\
  files (snd run) = [] /\
  ~ exists u, fst run = Return u.
Proof.
  do 5 (split; [vm_compute; reflexivity |]).
  intros (u & Hrun). vm_compute in Hrun. discriminate.
Qed.

Lemma results_in_input_order_witness :
  exists results w',
    collect_results second_fatal ["test/A.jpg"; "test/B.jpg"; "test/C.jpg"] w0
    = (Return results, w') /\
    map file_name results
    `sublist_of` map stem ["test/A.jpg"; "test/B.jpg"; "test/C.jpg"].
Proof.
  apply (results_in_input_order second_fatal
           ["test/A.jpg"; "test/B.jpg"; "test/C.jpg"] w0).
  apply second_fatal_sized.
Defined.

(** C8 fails on the code: for [A; B; C] with B failing the report has two
    entries, A's and C's, and none for B. *)
Lemma failed_item_has_no_entry :
  let run :=
    collect_results second_fatal
      ["test/A.jpg"; "test/B.jpg"; "test/C.jpg"] w0 in
  fst run = Return [ {| file_name := "A"; detections := JArr [] |};
                     {| file_name := "C"; detections := JArr [] |} ] /\
  ~ exists results,
      fst run = Return results /\ map file_name results = ["A"; "B"; "C"].
Proof.
  split; [vm_compute; reflexivity |].
  intros (results & Hrun & Hnames). vm_compute in Hrun.
  injection Hrun as <-. discriminate.
Qed.

(** A payload that decodes to a bare number is appended and then makes
    [len] raise, outside any [try]: the run ends there. *)
Example bare_number_payload_aborts :
  fst (process_multiple_images
         (scripted [Return {| usage_metadata := None; text := Some "5" |}]
                   (Return empty_list_response))
         ["test/A.jpg"; "test/B.jpg"] OUTPUT_JSON_FILE w0)
  = Raise (no_len "int").
Proof. reflexivity. Qed.

(** [strip] removes the white space of Unicode, not of ASCII only: a
    no-break space (U+00A0) and a space before the text, a line separator
    (U+2028) and a line feed after it. *)
Example strip_removes_unicode_white_space :
  strip (String (ascii_of_nat 194) (String (ascii_of_nat 160)
           (" []" +:+
            String (ascii_of_nat 226) (String (ascii_of_nat 128)
              (String (ascii_of_nat 168) (String (ascii_of_nat 10) ""))))))
  = "[]".
Proof. reflexivity. Qed.

(** A response padded with no-break spaces is decoded all the same. *)
Example padded_response_is_decoded :
  let nbsp := String (ascii_of_nat 194) (String (ascii_of_nat 160) "") in
  fst (get_bounding_boxes
         (scripted [Return {| usage_metadata := None;
                              text := Some (nbsp +:+ "[]" +:+ nbsp) |}]
                   (Return empty_list_response))
         "test/A.jpg" w0)
  = Return (Some {| file_name := "A"; detections := JArr [] |}).
Proof. reflexivity. Qed.

(** [len] of a string counts characters, not bytes: "e" with an acute
    accent (U+00E9, two bytes) followed by "t" has length 2. *)
Example len_counts_characters :
  let s := String (ascii_of_nat 195) (String (ascii_of_nat 169) "t") in
  py_len (JStr s) = Return 2%nat /\ String.length s = 3%nat.
Proof. split; reflexivity. Qed.

(** * Further properties of the script *)

(** ** The invoker: calls, sleeps and outcome *)

Lemma retry_loop_calls_le E max_retries initial_delay fuel : forall attempt w,
  (calls (snd (retry_loop E max_retries initial_delay fuel attempt w))
   <= calls w + fuel)%nat.
Proof.
  induction fuel as [| fuel IH]; intros attempt w; [simpl; lia |].
  retry_loop_case E max_retries initial_delay fuel attempt w.
  1-3: simpl; lia.
  - destruct Hw' as [-> | ->]; simpl; lia.
  - match goal with
    | |- context [retry_loop _ _ _ _ ?a ?w1] => specialize (IH a w1)
    end.
    simpl in IH |- *. lia.
Qed.

(** One invocation makes at most [max_retries] remote calls, whatever the
    service answers, and at least one as soon as [max_retries] is
    positive. *)
Theorem invoker_calls_bounded E max_retries initial_delay w :
  let w' := snd (generate_content_with_retry E max_retries initial_delay w) in
  (calls w <= calls w')%nat /\
  (calls w' <= calls w + Z.to_nat max_retries)%nat /\
  (0 < max_retries -> (calls w < calls w')%nat).
Proof.
  intros w'. subst w'. unfold generate_content_with_retry.
  pose proof (retry_loop_calls E max_retries initial_delay
                (Z.to_nat max_retries) 0 w) as Hlo.
  pose proof (retry_loop_calls_le E max_retries initial_delay
                (Z.to_nat max_retries) 0 w) as Hhi.
  split; [lia |]. split; [exact Hhi |].
  intros Hmax. destruct (Z.to_nat max_retries) eqn:Hn; [lia |]. lia.
Qed.

Lemma retry_loop_calls_sleeps E max_retries initial_delay fuel :
  forall attempt w,
    attempt + Z.of_nat fuel = max_retries ->
    let w' := snd (retry_loop E max_retries initial_delay fuel attempt w) in
    (calls w' + length (sleeps w)
     = calls w + length (sleeps w') + (if fuel is O then 0 else 1))%nat.
Proof.
  induction fuel as [| fuel IH]; intros attempt w Hmax; [simpl; lia |].
  cbv zeta. retry_loop_case E max_retries initial_delay fuel attempt w.
  1-3: simpl; lia.
  1: destruct Hw' as [-> | ->]; simpl; lia.
  match goal with
  | |- context [retry_loop _ _ _ ?f ?a ?w1] =>
    pose proof (IH a w1 ltac:(lia)) as Hrec; cbv zeta in Hrec;
    set (run := retry_loop E max_retries initial_delay f a w1) in *;
    clearbody run
  end.
  destruct fuel as [| fuel']; [lia |].
  simpl in Hrec. rewrite length_app in Hrec. simpl in Hrec. lia.
Qed.

(** Calls and sleeps alternate: an invocation that runs at all makes exactly
    one more remote call than it sleeps. *)
Theorem invoker_calls_one_more_than_sleeps E max_retries initial_delay w :
  0 < max_retries ->
  let w' := snd (generate_content_with_retry E max_retries initial_delay w) in
  (calls w' - calls w = length (sleeps w') - length (sleeps w) + 1)%nat.
Proof.
  intros Hmax w'. subst w'. unfold generate_content_with_retry.
  pose proof (retry_loop_calls_sleeps E max_retries initial_delay
                (Z.to_nat max_retries) 0 w ltac:(lia)) as Heq.
  pose proof (retry_loop_calls E max_retries initial_delay
                (Z.to_nat max_retries) 0 w) as Hlo.
  destruct (retry_loop_sleeps E max_retries initial_delay
              (Z.to_nat max_retries) 0 w) as (j & _ & Hs); [lia |].
  cbv zeta in Heq. rewrite Hs in Heq |- *. rewrite length_app in Heq |- *.
  destruct (Z.to_nat max_retries) eqn:Hn; [lia |]. lia.
Qed.

Lemma retry_loop_last_call E max_retries initial_delay fuel :
  forall attempt w,
    0 <= attempt ->
    let run := retry_loop E max_retries initial_delay fuel attempt w in
    (forall r, fst run = Return (Some r) ->
       models_generate_content E (pred (calls (snd run))) = Return r) /\
    (forall e, fst run = Raise e ->
       models_generate_content E (pred (calls (snd run))) = Raise e \/
       (~ schedule_accepted max_retries initial_delay /\
        (exn_class e = "OverflowError" \/ exn_class e = "ValueError") /\
        exists e0,
          models_generate_content E (pred (calls (snd run))) = Raise e0 /\
          is_retriable_error (exn_str e0) = true)).
Proof.
  induction fuel as [| fuel IH]; intros attempt w Hatt0; cbv zeta.
  - simpl. split; discriminate.
  - retry_loop_case E max_retries initial_delay fuel attempt w.
    + simpl. split; [intros r' [= <-]; exact Hcall | discriminate].
    + simpl. split; [discriminate | intros e' [= <-]; left; exact Hcall].
    + simpl. split; [discriminate | intros e' [= <-]; left; exact Hcall].
    + cbn [fst snd]. split; [discriminate |]. intros e'' [= <-]. right.
      assert (Hpred : pred (calls w') = calls w)
        by (destruct Hw' as [-> | ->]; reflexivity).
      rewrite Hpred. split; [| split].
      * intros Hsched. apply Hdelay.
        now apply (schedule_accepted_delay max_retries).
      * rewrite Hclass.
        destruct ((initial_delay * backoff_multiplier ^ attempt <? - SLEEP_MAX)
                  || (SLEEP_MAX <? initial_delay * backoff_multiplier ^ attempt));
          auto.
      * exists e. auto.
    + apply IH. lia.
Qed.

(** The outcome of an invocation is the outcome of the last remote call it
    made.  A response returned is that call's response.  An error raised is
    that call's error, with one exception: when a backoff delay of the
    schedule is one [time.sleep] (or the formatting of the retry line)
    rejects, the last call failed with a retriable error and what is raised
    is the [OverflowError] or [ValueError] of that rejection. *)
Theorem invoker_outcome_is_last_call E max_retries initial_delay w :
  let run := generate_content_with_retry E max_retries initial_delay w in
  (forall r, fst run = Return (Some r) ->
     models_generate_content E (pred (calls (snd run))) = Return r) /\
  (forall e, fst run = Raise e ->
     models_generate_content E (pred (calls (snd run))) = Raise e \/
     (~ schedule_accepted max_retries initial_delay /\
      (exn_class e = "OverflowError" \/ exn_class e = "ValueError") /\
      exists e0,
        models_generate_content E (pred (calls (snd run))) = Raise e0 /\
        is_retriable_error (exn_str e0) = true)).
Proof. apply retry_loop_last_call. lia. Qed.

Lemma retry_loop_not_None E max_retries initial_delay fuel :
  forall attempt w,
    attempt + Z.of_nat (S fuel) = max_retries ->
    fst (retry_loop E max_retries initial_delay (S fuel) attempt w)
    <> Return None.
Proof.
  induction fuel as [| fuel IH]; intros attempt w Hmax.
  - retry_loop_case E max_retries initial_delay O attempt w;
      try (simpl; discriminate); lia.
  - retry_loop_case E max_retries initial_delay (S fuel) attempt w;
      try (simpl; discriminate).
    apply IH. lia.
Qed.

(** The invoker returns [None] exactly when [max_retries] is not positive:
    with a positive [max_retries] it returns a response or raises. *)
Theorem invoker_returns_None_iff E max_retries initial_delay w :
  fst (generate_content_with_retry E max_retries initial_delay w) = Return None
  <-> max_retries <= 0.
Proof.
  unfold generate_content_with_retry. split.
  - intros Hnone. destruct (Z.to_nat max_retries) as [| fuel] eqn:Hn; [lia |].
    exfalso. revert Hnone. apply retry_loop_not_None. lia.
  - intros Hmax. replace (Z.to_nat max_retries) with O by lia. reflexivity.
Qed.

(** With a negative [initial_delay] the first retriable failure that has
    attempts left does not lead to a retry: the delay is rejected, and the
    error of that rejection, not the service's error, leaves the invoker
    after one call and no sleep.  The error is the [ValueError] of
    [time.sleep] down to [- 9223372036] seconds and an [OverflowError]
    below. *)
Theorem negative_delay_is_rejected E max_retries initial_delay w e :
  initial_delay < 0 ->
  1 < max_retries ->
  models_generate_content E (calls w) = Raise e ->
  is_retriable_error (exn_str e) = true ->
  exists e' w',
    generate_content_with_retry E max_retries initial_delay w = (Raise e', w') /\
    exn_class e'
    = (if initial_delay <? - SLEEP_MAX then "OverflowError" else "ValueError") /\
    (- SLEEP_MAX <= initial_delay ->
     e' = mkExn "ValueError" "sleep length must be non-negative") /\
    calls w' = S (calls w) /\
    sleeps w' = sleeps w.
Proof.
  intros Hneg Hmax Hcall Hret. unfold generate_content_with_retry.
  destruct (Z.to_nat max_retries) as [| fuel] eqn:Hn; [lia |].
  simpl retry_loop. unfold try_except, bind at 1. unfold generate_content.
  rewrite Hcall, Hret.
  assert (Hlt : (0 <? max_retries - 1) = true) by (apply Z.ltb_lt; lia).
  rewrite Hlt. cbn [andb]. rewrite Z.pow_0_r, Z.mul_1_r.
  unfold bind at 1. unfold format_1f.
  pose proof sleep_max_lt_float_overflow as Hfloat.
  destruct (FLOAT_OVERFLOW <=? Z.abs initial_delay) eqn:Hbig.
  - apply Z.leb_le in Hbig. rewrite Z.abs_neq in Hbig by lia.
    assert (Hout : (initial_delay <? - SLEEP_MAX) = true)
      by (apply Z.ltb_lt; lia).
    rewrite Hout. do 2 eexists. split; [reflexivity |].
    split; [reflexivity |]. split; [lia |]. split; reflexivity.
  - unfold bind at 1. unfold print at 1. unfold bind at 1. unfold time_sleep.
    assert (Hhi : (SLEEP_MAX <? initial_delay) = false)
      by (apply Z.ltb_ge; unfold SLEEP_MAX; lia).
    rewrite Hhi, orb_false_r.
    destruct (initial_delay <? - SLEEP_MAX) eqn:Hout.
    + apply Z.ltb_lt in Hout. do 2 eexists. split; [reflexivity |].
      split; [reflexivity |]. split; [lia |]. split; reflexivity.
    + assert (Hlt0 : (initial_delay <? 0) = true) by (apply Z.ltb_lt; lia).
      rewrite Hlt0. do 2 eexists. split; [reflexivity |].
      split; [reflexivity |]. split; [reflexivity |]. split; reflexivity.
Qed.

(** Whatever the service answers, the delays one invocation sleeps are the
    first [j] terms of [initial_delay], [2 * initial_delay],
    [4 * initial_delay], ..., for some [j] below [max_retries]: no delay is
    skipped, repeated or reordered. *)
Theorem sleep_schedule_is_geometric_prefix E max_retries initial_delay w :
  let w' := snd (generate_content_with_retry E max_retries initial_delay w) in
  exists j,
    (j <= pred (Z.to_nat max_retries))%nat /\
    sleeps w'
    = sleeps w ++
      map (fun i => initial_delay * backoff_multiplier ^ Z.of_nat i) (seq 0 j).
Proof.
  cbv zeta. unfold generate_content_with_retry.
  destruct (Z_le_gt_dec 0 max_retries) as [Hmax | Hmax].
  - destruct (retry_loop_sleeps E max_retries initial_delay
                (Z.to_nat max_retries) 0 w) as (j & Hj & Hs); [lia |].
    exists j. split; [exact Hj |]. rewrite Hs, delays_from_0. reflexivity.
  - replace (Z.to_nat max_retries) with O by lia.
    exists O. split; [lia |]. simpl. now rewrite app_nil_r.
Qed.

(** ** One item: when the service is called and what comes back *)

Lemma only_printed_refl w : only_printed w w.
Proof. repeat split. Qed.

Lemma only_printed_printed ev w w' :
  only_printed w w' -> only_printed w (printed ev w').
Proof. intros (Hc & Hs & Hf). repeat split; assumption. Qed.

(** What the item's entry is, given how the invoker's run ended. *)
Lemma get_bounding_boxes_shape E image_file_path w :
  exists o w2,
    get_bounding_boxes E image_file_path w = (Return o, w2) /\
    ((o = None /\ only_printed w w2 /\
      ((exists e, genai_Client E = Raise e) \/
       os_path_exists E image_file_path = false \/
       (exists e, Image_open E image_file_path = Raise e))) \/
     (genai_Client E = Return tt /\
      os_path_exists E image_file_path = true /\
      Image_open E image_file_path = Return tt /\
      let run := generate_content_with_retry E MAX_RETRIES INITIAL_DELAY w in
      only_printed (snd run) w2 /\
      o = match fst run with
          | Return (Some r) =>
            match text r with
            | Some t =>
              match json_loads E (strip t) with
              | Return v =>
                Some {| file_name := stem image_file_path; detections := v |}
              | Raise _ => None
              end
            | None => None
            end
          | _ => None
          end)).
Proof.
  unfold get_bounding_boxes, try_except, get_bounding_boxes_body, bind, lift.
  destruct (genai_Client E) as [[] | e].
  2: { do 2 eexists. split; [reflexivity |]. left.
       split; [reflexivity |]. split; [| eauto].
       apply only_printed_printed, only_printed_refl. }
  destruct (os_path_exists E image_file_path); cbn [negb].
  2: { do 2 eexists. split; [reflexivity |]. left.
       split; [reflexivity |]. split; [| eauto].
       apply only_printed_printed, only_printed_refl. }
  destruct (Image_open E image_file_path) as [[] | e].
  2: { do 2 eexists. split; [reflexivity |]. left.
       split; [reflexivity |]. split; [| eauto].
       apply only_printed_printed, only_printed_refl. }
  destruct (generate_content_with_retry E MAX_RETRIES INITIAL_DELAY w)
    as [[[r |] | e] w1]; cbn [fst snd].
  - assert (Hmeta : exists w2,
               (match usage_metadata r with
                | Some um => print (PrintTokens (total_token_count um))
                | None => ret tt
                end) w1 = (Return tt, w2) /\ only_printed w1 w2).
    { destruct (usage_metadata r); unfold print, ret; eexists;
        (split; [reflexivity |]);
        [apply only_printed_printed |]; apply only_printed_refl. }
    destruct Hmeta as (w2 & -> & Hw2).
    destruct (text r) as [t |]; unfold ret, raise.
    + destruct (json_loads E (strip t)) as [v | e];
        do 2 eexists; (split; [reflexivity |]); right; cbn [fst snd];
        (do 3 (split; [reflexivity |])); (split; [| reflexivity]);
        [exact Hw2 | apply only_printed_printed; exact Hw2].
    + do 2 eexists. split; [reflexivity |]. right. cbn [fst snd].
      do 3 (split; [reflexivity |]). split; [| reflexivity].
      apply only_printed_printed; exact Hw2.
  - unfold ret, raise. do 2 eexists. split; [reflexivity |]. right.
    cbn [fst snd]. do 3 (split; [reflexivity |]). split; [| reflexivity].
    apply only_printed_printed, only_printed_refl.
  - do 2 eexists. split; [reflexivity |]. right. cbn [fst snd].
    do 3 (split; [reflexivity |]). split; [| reflexivity].
    apply only_printed_printed, only_printed_refl.
Qed.

(** A client that cannot be built, a path that does not exist or an image
    that cannot be opened costs no remote call and no sleep: the item comes
    back as [None] with lines printed only. *)
Theorem no_image_no_remote_call E image_file_path w :
  (exists e, genai_Client E = Raise e) \/
  os_path_exists E image_file_path = false \/
  (exists e, Image_open E image_file_path = Raise e) ->
  exists w2,
    get_bounding_boxes E image_file_path w = (Return None, w2) /\
    only_printed w w2.
Proof.
  intros Hbad.
  destruct (get_bounding_boxes_shape E image_file_path w)
    as (o & w2 & Hrun & [(-> & Honly & _) | (Hc & Hx & Hi & _)]).
  - eauto.
  - destruct Hbad as [(e & He) | [Hne | (e & He)]]; congruence.
Qed.

(** An entry that comes back is named after the path without directory and
    extension, and its detections are the decoded, stripped text of the
    response to the last remote call made for the item. *)
Theorem entry_comes_from_last_response E image_file_path w fd w2 :
  get_bounding_boxes E image_file_path w = (Return (Some fd), w2) ->
  file_name fd = stem image_file_path /\
  exists r t,
    models_generate_content E (pred (calls w2)) = Return r /\
    text r = Some t /\
    json_loads E (strip t) = Return (detections fd).
Proof.
  intros Hrun.
  destruct (get_bounding_boxes_shape E image_file_path w)
    as (o & w2' & Hrun' & Hshape).
  rewrite Hrun in Hrun'. injection Hrun' as <- <-.
  destruct Hshape as [(Hnone & _) | (_ & _ & _ & Hshape)]; [discriminate |].
  cbv zeta in Hshape. destruct Hshape as ((Hc & _ & _) & Ho).
  pose proof (retry_loop_last_call E MAX_RETRIES INITIAL_DELAY
                (Z.to_nat MAX_RETRIES) 0 w (Z.le_refl 0)) as [Hlast _].
  fold (generate_content_with_retry E MAX_RETRIES INITIAL_DELAY w) in Hlast.
  destruct (generate_content_with_retry E MAX_RETRIES INITIAL_DELAY w)
    as [[[r |] | e] w1]; try discriminate.
  cbn [fst snd] in *. specialize (Hlast r eq_refl).
  destruct (text r) as [t |] eqn:Ht; [| discriminate].
  destruct (json_loads E (strip t)) as [v | e] eqn:Hv; [| discriminate].
  injection Ho as ->. simpl. split; [reflexivity |].
  exists r, t. rewrite Hc. auto.
Qed.

(** A response that cannot be used is not retried: when the first call
    succeeds but its text is missing or does not decode, the item comes back
    as [None] after that single call, without any sleep. *)
Theorem unusable_response_is_not_retried E image_file_path w r :
  genai_Client E = Return tt ->
  os_path_exists E image_file_path = true ->
  Image_open E image_file_path = Return tt ->
  models_generate_content E (calls w) = Return r ->
  (text r = None \/
   exists t e, text r = Some t /\ json_loads E (strip t) = Raise e) ->
  exists w2,
    get_bounding_boxes E image_file_path w = (Return None, w2) /\
    calls w2 = S (calls w) /\
    sleeps w2 = sleeps w.
Proof.
  intros Hclient Hexists Himg Hcall Hbad.
  destruct (get_bounding_boxes_shape E image_file_path w)
    as (o & w2 & Hrun & [(_ & _ & Hno) | (_ & _ & _ & Hshape)]).
  - destruct Hno as [(e & He) | [Hne | (e & He)]]; congruence.
  - cbv zeta in Hshape. destruct Hshape as ((Hc & Hs & _) & Ho).
    unfold generate_content_with_retry in Hc, Hs, Ho.
    change (Z.to_nat MAX_RETRIES) with 5%nat in Hc, Hs, Ho.
    rewrite (retry_loop_success E MAX_RETRIES INITIAL_DELAY 4 0 w r Hcall)
      in Hc, Hs, Ho.
    cbn [fst snd] in Hc, Hs, Ho.
    exists w2. rewrite Hrun, Hc, Hs.
    destruct Hbad as [Hnone | (t & e & Ht & He)].
    + rewrite Hnone in Ho. subst o. auto.
    + rewrite Ht, He in Ho. subst o. auto.
Qed.

Lemma default_slept_bounds E w :
  let w' := snd (generate_content_with_retry E MAX_RETRIES INITIAL_DELAY w) in
  0 <= slept w' - slept w <= DEFAULT_MAX_WAIT.
Proof.
  intros w'. subst w'. unfold generate_content_with_retry.
  destruct (retry_loop_sleeps E MAX_RETRIES INITIAL_DELAY
              (Z.to_nat MAX_RETRIES) 0 w) as (j & Hj & Hs); [reflexivity |].
  unfold slept. rewrite Hs, sum_app, sum_delays by lia.
  change (Z.to_nat MAX_RETRIES) with 5%nat in Hj. simpl in Hj.
  change DEFAULT_MAX_WAIT with 30.
  unfold INITIAL_DELAY, backoff_multiplier. rewrite Z.pow_0_r.
  assert (Hpow : 1 <= 2 ^ Z.of_nat j <= 16).
  { do 5 (destruct j as [| j]; [vm_compute; split; discriminate |]). lia. }
  lia.
Qed.

Lemma get_bounding_boxes_budget E image_file_path w :
  let w2 := snd (get_bounding_boxes E image_file_path w) in
  (calls w <= calls w2 <= calls w + 5)%nat /\
  0 <= slept w2 - slept w <= 30 /\
  files w2 = files w.
Proof.
  intros w2. subst w2.
  destruct (get_bounding_boxes_shape E image_file_path w)
    as (o & w2 & Hrun & [(_ & (Hc & Hs & Hf) & _) | (_ & _ & _ & Hshape)]);
    rewrite Hrun; cbn [snd].
  - unfold slept. rewrite Hc, Hs, Hf. repeat split; lia.
  - cbv zeta in Hshape. destruct Hshape as ((Hc & Hs & Hf) & _).
    pose proof (retry_loop_calls E MAX_RETRIES INITIAL_DELAY
                  (Z.to_nat MAX_RETRIES) 0 w) as Hlo.
    pose proof (retry_loop_calls_le E MAX_RETRIES INITIAL_DELAY
                  (Z.to_nat MAX_RETRIES) 0 w) as Hhi.
    fold (generate_content_with_retry E MAX_RETRIES INITIAL_DELAY w) in Hlo, Hhi.
    pose proof (default_slept_bounds E w) as Hslept.
    pose proof (proj1 (proj1 (retry_loop_item_steps E MAX_RETRIES INITIAL_DELAY
                                (Z.to_nat MAX_RETRIES) 0 w))) as Hfiles.
    fold (generate_content_with_retry E MAX_RETRIES INITIAL_DELAY w) in Hfiles.
    cbv zeta in Hslept.
    unfold slept in *. rewrite Hc, Hs, Hf.
    change (Z.to_nat MAX_RETRIES) with 5%nat in Hlo, Hhi.
    change DEFAULT_MAX_WAIT with 30 in Hslept. simpl in Hlo.
    split; [lia |]. split; [lia | exact Hfiles].
Qed.

(** One item costs at most [MAX_RETRIES] = 5 remote calls and at most 30
    seconds of sleep, and writes no file. *)
Theorem item_budget E image_file_path w :
  let w2 := snd (get_bounding_boxes E image_file_path w) in
  (calls w <= calls w2 <= calls w + 5)%nat /\
  0 <= slept w2 - slept w <= 30 /\
  files w2 = files w.
Proof. apply get_bounding_boxes_budget. Qed.

(** ** The batch: budget, aborts and the output file *)



(** Whatever the service and the payloads do, the loop stays within the
    budget of its items, writes no file, and can only be left by the
    [TypeError] of [len]. *)
Lemma process_loop_frame E total image_paths : forall i all_results w,
  let run := process_loop E total i image_paths all_results w in
  (calls w <= calls (snd run) <= calls w + 5 * length image_paths)%nat /\
  0 <= slept (snd run) - slept w <= 30 * Z.of_nat (length image_paths) /\
  files (snd run) = files w /\
  forall e, fst run = Raise e -> is_no_len e.
Proof.
  induction image_paths as [| image_path rest IH]; intros i all_results w.
  - simpl. repeat split; try lia. discriminate.
  - cbv zeta. rewrite process_loop_cons.
    pose proof (get_bounding_boxes_budget E image_path
                  (printed (PrintProcessing (i + 1) total image_path) w))
      as (Hc & Hs & Hf).
    destruct (get_bounding_boxes_shape E image_path
                (printed (PrintProcessing (i + 1) total image_path) w))
      as (o & w2 & Hrun & _).
    rewrite Hrun in Hc, Hs, Hf |- *. cbn [snd] in Hc, Hs, Hf.
    change (slept (printed (PrintProcessing (i + 1) total image_path) w))
      with (slept w) in Hs.
    simpl calls in Hc. simpl files in Hf. simpl length.
    assert (Hnext : forall ev acc,
      let run := process_loop E total (i + 1) rest acc (printed ev w2) in
      (calls w <= calls (snd run) <= calls w + 5 * S (length rest))%nat /\
      0 <= slept (snd run) - slept w <= 30 * Z.of_nat (S (length rest)) /\
      files (snd run) = files w /\
      forall e, fst run = Raise e -> is_no_len e).
    { intros ev acc. destruct (IH (i + 1)%nat acc (printed ev w2))
        as (Hc' & Hs' & Hf' & He').
      change (slept (printed ev w2)) with (slept w2) in Hs'.
      simpl calls in Hc'. simpl files in Hf'. cbv zeta.
      split; [lia |]. split; [lia |]. split; [congruence | exact He']. }
    destruct o as [fd |]; [| apply Hnext].
    destruct (negb (is_None (detections fd))); [| apply Hnext].
    destruct (py_len (detections fd)) as [n | e] eqn:Hlen; [apply Hnext |].
    cbn [fst snd]. split; [lia |]. split; [lia |]. split; [exact Hf |].
    intros e' [= <-]. exact (py_len_raises _ _ Hlen).
Qed.

Lemma save_results_frame E all_results output_json_file w :
  let w' := snd (save_results E all_results output_json_file w) in
  fst (save_results E all_results output_json_file w) = Return tt /\
  calls w' = calls w /\ sleeps w' = sleeps w /\
  (files w' = files w \/
   files w' = (output_json_file, all_results) :: files w) /\
  (forall e, open_w E output_json_file = Raise e ->
     files w' = files w /\ last (stdout w') = Some (PrintSaveError e)).
Proof.
  unfold save_results, try_except, bind, lift, json_dump, print.
  destruct (open_w E output_json_file) as [[] | e].
  - destruct (total_detections all_results) as [total | e]; simpl;
      (do 3 (split; [reflexivity |])); (split; [auto | discriminate]).
  - simpl. do 3 (split; [reflexivity |]). split; [auto |].
    intros e' [= <-]. split; [reflexivity | apply last_snoc].
Qed.

Lemma process_multiple_images_unfold E image_paths output_json_file w :
  process_multiple_images E image_paths output_json_file w
  = match process_loop E (length image_paths) 0 image_paths []
            (printed (PrintStart (length image_paths)) w) with
    | (Return all_results, w1) =>
      save_results E all_results output_json_file w1
    | (Raise e, w1) => (Raise e, w1)
    end.
Proof. reflexivity. Qed.

Lemma process_multiple_images_frame E image_paths output_json_file w :
  let run := process_multiple_images E image_paths output_json_file w in
  (calls w <= calls (snd run) <= calls w + 5 * length image_paths)%nat /\
  0 <= slept (snd run) - slept w <= 30 * Z.of_nat (length image_paths) /\
  (files (snd run) = files w \/
   exists results,
     files (snd run) = (output_json_file, results) :: files w) /\
  (forall e, fst run = Raise e ->
     is_no_len e /\ files (snd run) = files w) /\
  (forall e, open_w E output_json_file = Raise e -> files (snd run) = files w).
Proof.
  cbv zeta. rewrite process_multiple_images_unfold.
  pose proof (process_loop_frame E (length image_paths) image_paths O []
                (printed (PrintStart (length image_paths)) w))
    as (Hc & Hs & Hf & He).
  change (slept (printed (PrintStart (length image_paths)) w))
    with (slept w) in Hs.
  simpl calls in Hc. simpl files in Hf.
  destruct (process_loop E (length image_paths) 0 image_paths []
              (printed (PrintStart (length image_paths)) w))
    as [[results | e] w1]; cbn [fst snd] in *.
  - pose proof (save_results_frame E results output_json_file w1)
      as (Hret & Hc' & Hs' & Hf' & Hopen).
    destruct (save_results E results output_json_file w1) as [r w2].
    cbn [fst snd] in *. subst r. unfold slept in *. rewrite Hc', Hs'.
    split; [lia |]. split; [lia |]. split; [| split].
    + destruct Hf' as [-> | ->]; [left | right; exists results]; congruence.
    + discriminate.
    + intros e Hraise. destruct (Hopen e Hraise) as [-> _]. exact Hf.
  - split; [lia |]. split; [lia |]. split; [left; exact Hf |]. split.
    + intros e' [= <-]. split; [apply He; reflexivity | exact Hf].
    + intros _ _. exact Hf.
Qed.

(** A batch of [n] items costs at most [5 * n] remote calls and at most
    [30 * n] seconds of sleep, whatever the service answers. *)
Theorem batch_budget E image_paths output_json_file w :
  let w' := snd (process_multiple_images E image_paths output_json_file w) in
  (calls w' <= calls w + 5 * length image_paths)%nat /\
  0 <= slept w' - slept w <= 30 * Z.of_nat (length image_paths).
Proof.
  pose proof (process_multiple_images_frame E image_paths output_json_file w)
    as (Hc & Hs & _).
  cbv zeta. split; [lia | exact Hs].
Qed.


(** The batch writes at most one file, [output_json_file], and touches no
    other; when that file cannot be opened the run leaves the files as they
    were. *)
Theorem writes_only_output_file E image_paths output_json_file w :
  let w' := snd (process_multiple_images E image_paths output_json_file w) in
  (files w' = files w \/
   exists results, files w' = (output_json_file, results) :: files w) /\
  (forall e, open_w E output_json_file = Raise e -> files w' = files w).
Proof.
  pose proof (process_multiple_images_frame E image_paths output_json_file w)
    as (_ & _ & Hfiles & _ & Hopen).
  cbv zeta. split; assumption.
Qed.





(** When the output file cannot be opened the batch still returns normally:
    the error is printed, nothing is written and the gathered report is
    lost. *)
Theorem save_error_is_reported E image_paths output_json_file w e :
  payloads_sized E ->
  open_w E output_json_file = Raise e ->
  exists w',
    process_multiple_images E image_paths output_json_file w = (Return tt, w') /\
    last (stdout w') = Some (PrintSaveError e) /\
    files w' = files w.
Proof.
  intros Hsized Hopen.
  destruct (collect_results_report E Hsized image_paths w)
    as (results & w1 & Hrun & _ & _ & _ & Hfiles).
  unfold process_multiple_images, bind. rewrite Hrun.
  unfold save_results, try_except, bind, lift. rewrite Hopen.
  eexists. split; [reflexivity |]. simpl.
  split; [apply last_snoc | exact Hfiles].
Qed.

Lemma get_bounding_boxes_success E image_file_path w r t v :
  genai_Client E = Return tt ->
  os_path_exists E image_file_path = true ->
  Image_open E image_file_path = Return tt ->
  models_generate_content E (calls w) = Return r ->
  text r = Some t ->
  json_loads E (strip t) = Return v ->
  exists w2,
    get_bounding_boxes E image_file_path w
    = (Return (Some {| file_name := stem image_file_path; detections := v |}),
       w2) /\
    calls w2 = S (calls w) /\ sleeps w2 = sleeps w.
Proof.
  intros Hclient Hexists Himg Hcall Ht Hv.
  destruct (get_bounding_boxes_shape E image_file_path w)
    as (o & w2 & Hrun & [(_ & _ & Hno) | (_ & _ & _ & Hshape)]).
  - destruct Hno as [(e & He) | [Hne | (e & He)]]; congruence.
  - cbv zeta in Hshape. destruct Hshape as ((Hc & Hs & _) & Ho).
    unfold generate_content_with_retry in Hc, Hs, Ho.
    change (Z.to_nat MAX_RETRIES) with 5%nat in Hc, Hs, Ho.
    rewrite (retry_loop_success E MAX_RETRIES INITIAL_DELAY 4 0 w r Hcall)
      in Hc, Hs, Ho.
    cbn [fst snd] in Hc, Hs, Ho. rewrite Ht, Hv in Ho. subst o.
    exists w2. auto.
Qed.

Lemma process_loop_all_succeed E (payload : nat -> json) total image_paths :
  genai_Client E = Return tt ->
  forall i all_results w,
    (forall p, In p image_paths ->
       os_path_exists E p = true /\ Image_open E p = Return tt) ->
    (forall k, (k < length image_paths)%nat ->
       exists r t n,
         models_generate_content E (calls w + k) = Return r /\
         text r = Some t /\
         json_loads E (strip t) = Return (payload (calls w + k)%nat) /\
         is_None (payload (calls w + k)%nat) = false /\
         py_len (payload (calls w + k)%nat) = Return n) ->
    exists w',
      process_loop E total i image_paths all_results w
      = (Return (all_results ++
                 zip_with (fun p k => {| file_name := stem p;
                                         detections := payload k |})
                          image_paths (seq (calls w) (length image_paths))),
         w') /\
      calls w' = (calls w + length image_paths)%nat /\
      sleeps w' = sleeps w.
Proof.
  intros Hclient.
  induction image_paths as [| image_path rest IH];
    intros i all_results w Hfs Hcalls.
  - exists w. simpl. rewrite app_nil_r. unfold ret. auto.
  - destruct (Hfs image_path (or_introl eq_refl)) as [Hexists Himg].
    destruct (Hcalls O ltac:(simpl; lia)) as (r & t & n & Hr & Ht & Hv & Hnn & Hn).
    rewrite Nat.add_0_r in Hr, Hv, Hnn, Hn.
    destruct (get_bounding_boxes_success E image_path
                (printed (PrintProcessing (i + 1) total image_path) w)
                r t _ Hclient Hexists Himg Hr Ht Hv)
      as (w2 & Hrun & Hc2 & Hs2).
    rewrite (process_loop_keep E total i image_path rest all_results w _ w2 n
               Hrun Hnn Hn).
    simpl calls in Hc2. simpl sleeps in Hs2.
    destruct (IH (i + 1)%nat
                (all_results ++
                 [{| file_name := stem image_path;
                     detections := payload (calls w) |}])
                (printed (PrintDetected n) w2))
      as (w' & Hloop & Hc' & Hs').
    + intros p Hp. apply Hfs. right. exact Hp.
    + intros k Hk. simpl calls. rewrite Hc2.
      destruct (Hcalls (S k) ltac:(simpl; lia)) as (r' & t' & n' & H').
      replace (S (calls w) + k)%nat with (calls w + S k)%nat by lia. eauto.
    + exists w'. rewrite Hloop. simpl calls in *. simpl sleeps in *.
      rewrite Hc2, <- app_assoc. simpl.
      split; [reflexivity |]. split; [lia | congruence].
Qed.

(** When everything works, each item costs exactly one remote call and no
    sleep, and the report holds one entry per item, in input order: the
    [k]-th item is named after its path and carries the payload of the
    [k]-th call of the run. *)
Theorem all_succeed_one_call_each E (payload : nat -> json) image_paths w :
  genai_Client E = Return tt ->
  (forall p, In p image_paths ->
     os_path_exists E p = true /\ Image_open E p = Return tt) ->
  (forall k, (k < length image_paths)%nat ->
     exists r t n,
       models_generate_content E (calls w + k) = Return r /\
       text r = Some t /\
       json_loads E (strip t) = Return (payload (calls w + k)%nat) /\
       is_None (payload (calls w + k)%nat) = false /\
       py_len (payload (calls w + k)%nat) = Return n) ->
  exists w',
    collect_results E image_paths w
    = (Return (zip_with (fun p k => {| file_name := stem p;
                                       detections := payload k |})
                        image_paths (seq (calls w) (length image_paths))),
       w') /\
    calls w' = (calls w + length image_paths)%nat /\
    sleeps w' = sleeps w.
Proof.
  intros Hclient Hfs Hcalls.
  unfold collect_results, bind at 1. unfold print at 1.
  destruct (process_loop_all_succeed E payload (length image_paths) image_paths
              Hclient O [] (printed (PrintStart (length image_paths)) w)
              Hfs Hcalls)
    as (w' & Hloop & Hc & Hs).
  exists w'. rewrite Hloop. auto.
Qed.

(** ** Error texts and file names *)

Lemma append_assoc (a b c : string) : (a +:+ b) +:+ c = a +:+ b +:+ c.
Proof.
  induction a as [| x a IH]; [reflexivity |].
  change (String x ((a +:+ b) +:+ c) = String x (a +:+ b +:+ c)).
  now rewrite IH.
Qed.

(** An error text that is retriable stays retriable inside a longer text,
    whatever is put before or after it. *)
Theorem retriable_survives_wrapping pre error_message post :
  is_retriable_error error_message = true ->
  is_retriable_error (pre +:+ error_message +:+ post) = true.
Proof.
  rewrite !is_retriable_error_spec.
  intros (marker & Hin & p & q & ->).
  exists marker. split; [exact Hin |].
  exists (pre +:+ p), (q +:+ post). now rewrite !append_assoc.
Qed.

Lemma endswith_unfold s suffix :
  endswith s suffix
  = String.eqb s suffix ||
    match s with
    | String _ s' => endswith s' suffix
    | EmptyString => false
    end.
Proof. destruct s; reflexivity. Qed.

Lemma endswith_spec s suffix :
  endswith s suffix = true <-> exists pre, s = pre +:+ suffix.
Proof.
  split.
  - induction s as [| c s IH]; rewrite endswith_unfold, orb_true_iff.
    + intros [Heq | Hf]; [| discriminate].
      apply String.eqb_eq in Heq as <-. exists EmptyString. reflexivity.
    + intros [Heq | Hrest].
      * apply String.eqb_eq in Heq as <-. exists EmptyString. reflexivity.
      * destruct (IH Hrest) as (pre & ->). exists (String c pre). reflexivity.
  - intros (pre & ->). induction pre as [| c pre IH].
    + rewrite endswith_unfold, orb_true_iff. left. apply String.eqb_refl.
    + rewrite endswith_unfold, orb_true_iff. right. exact IH.
Qed.

Lemma lower_char_idempotent c : lower_char (lower_char c) = lower_char c.
Proof. destruct c as [[] [] [] [] [] [] [] []]; reflexivity. Qed.

Lemma lower_idempotent s : lower (lower s) = lower s.
Proof.
  induction s as [| c s IH]; simpl; [reflexivity |].
  now rewrite lower_char_idempotent, IH.
Qed.

(** A directory entry is taken for an image exactly when its name, in lower
    case, ends with ".jpg" or ".jpeg"; the case of the name does not
    matter. *)
Theorem image_names_by_extension f :
  (is_image_name f = true <->
   exists pre, lower f = pre +:+ ".jpg" \/ lower f = pre +:+ ".jpeg") /\
  is_image_name (lower f) = is_image_name f.
Proof.
  unfold is_image_name, IMAGE_EXTENSIONS. simpl existsb. split.
  - rewrite orb_false_r, orb_true_iff, !endswith_spec. split.
    + intros [(pre & H) | (pre & H)]; exists pre; auto.
    + intros (pre & [H | H]); [left | right]; exists pre; exact H.
  - now rewrite lower_idempotent.
Qed.

Lemma prefix_slash_has_char f :
  String.prefix "/" f = true -> has_char "/" f = true.
Proof.
  intros Hp. apply prefix_app in Hp as (post & ->). reflexivity.
Qed.

(** A directory entry [f] (a name without a slash) is processed under the
    path "test/f", and its report entry is named [f] without its
    extension. *)
Theorem listed_name_names_the_entry f :
  has_char "/" f = false ->
  os_path_join IMAGE_DIR f = "test/" +:+ f /\
  basename (os_path_join IMAGE_DIR f) = f /\
  stem (os_path_join IMAGE_DIR f) = fst (splitext f).
Proof.
  intros Hf.
  assert (Hjoin : os_path_join IMAGE_DIR f = "test/" +:+ f).
  { unfold os_path_join.
    destruct (String.prefix "/" f) eqn:Hp.
    - apply prefix_slash_has_char in Hp. congruence.
    - reflexivity. }
  assert (Hbase : basename ("test/" +:+ f) = f).
  { change ("test/" +:+ f)
      with (String "t" (String "e" (String "s" (String "t" (String "/" f))))).
    simpl. rewrite Hf. reflexivity. }
  split; [exact Hjoin |]. unfold stem. rewrite Hjoin, Hbase. auto.
Qed.

(** ** The entry point *)

Lemma filter_nothing {A} (f : A -> bool) (l : list A) :
  (forall x, In x l -> f x = false) -> List.filter f l = [].
Proof.
  induction l as [| x l IH]; intros Hnone; [reflexivity |]. simpl.
  rewrite (Hnone x (or_introl eq_refl)). apply IH.
  intros y Hy. apply Hnone. right. exact Hy.
Qed.

(** The script stops before the batch, leaving the world untouched (no
    remote call, no output file), when the image directory is missing or
    holds no image name; an error of [os.listdir] is not caught. *)
Theorem main_stops_without_images E D w :
  (os_path_isdir D IMAGE_DIR = false ->
   main E D w = (Return (Some (PrintNoDirectory IMAGE_DIR)), w)) /\
  (forall names,
     os_path_isdir D IMAGE_DIR = true ->
     os_listdir D IMAGE_DIR = Return names ->
     (forall f, In f names -> is_image_name f = false) ->
     main E D w = (Return (Some (PrintNoImages IMAGE_DIR)), w)) /\
  (forall e,
     os_path_isdir D IMAGE_DIR = true ->
     os_listdir D IMAGE_DIR = Raise e ->
     main E D w = (Raise e, w)).
Proof.
  unfold main. split; [| split].
  - intros ->. reflexivity.
  - intros names -> Hlist Hnone. cbn [negb]. unfold bind, lift.
    rewrite Hlist.
    rewrite (filter_nothing is_image_name names Hnone). reflexivity.
  - intros e -> Hlist. cbn [negb]. unfold bind, lift. rewrite Hlist.
    reflexivity.
Qed.

(** The script processes exactly the directory entries that are image
    names, in the order [os.listdir] gives them, each under the image
    directory, and no other entry. *)
Theorem main_processes_image_names E D w names :
  payloads_sized E ->
  os_path_isdir D IMAGE_DIR = true ->
  os_listdir D IMAGE_DIR = Return names ->
  exists o w',
    main E D w = (Return o, w') /\
    attempted (stdout w')
    = attempted (stdout w)
      ++ map (os_path_join IMAGE_DIR) (List.filter is_image_name names).
Proof.
  intros Hsized Hdir Hlist. unfold main. rewrite Hdir. cbn [negb].
  unfold bind at 1. unfold lift. rewrite Hlist.
  destruct (map (os_path_join IMAGE_DIR) (List.filter is_image_name names))
    as [| p ps] eqn:Hsel.
  - do 2 eexists. split; [reflexivity |]. now rewrite app_nil_r.
  - destruct (collect_results_report E Hsized (p :: ps) w)
      as (results & w1 & Hrun & _ & Hatt & _ & _).
    destruct (save_results_returns E results OUTPUT_JSON_FILE w1)
      as (w2 & Hsave & Hatt2 & _).
    exists None, w2. unfold bind, process_multiple_images, bind.
    rewrite Hrun, Hsave. split; [reflexivity | congruence].
Qed.

(** ** Concrete runs of the further properties *)

Lemma invoker_calls_bounded_witness :
  (calls w0
   < calls (snd (generate_content_with_retry quota_forever MAX_RETRIES
                   INITIAL_DELAY w0)))%nat.
Proof.
  destruct (invoker_calls_bounded quota_forever MAX_RETRIES INITIAL_DELAY w0)
    as (_ & _ & Hpos).
  apply Hpos. reflexivity.
Defined.

Lemma invoker_calls_one_more_than_sleeps_witness :
  let w' := snd (generate_content_with_retry quota_forever MAX_RETRIES
                   INITIAL_DELAY w0) in
  (calls w' - calls w0 = length (sleeps w') - length (sleeps w0) + 1)%nat.
Proof.
  apply (invoker_calls_one_more_than_sleeps quota_forever MAX_RETRIES
           INITIAL_DELAY w0).
  reflexivity.
Defined.

Lemma invoker_outcome_is_last_call_witness :
  let run := generate_content_with_retry
               (scripted [Raise quota] (Return empty_list_response))
               MAX_RETRIES INITIAL_DELAY w0 in
  models_generate_content
    (scripted [Raise quota] (Return empty_list_response))
    (pred (calls (snd run)))
  = Return empty_list_response.
Proof.
  intros run.
  destruct (invoker_outcome_is_last_call
              (scripted [Raise quota] (Return empty_list_response))
              MAX_RETRIES INITIAL_DELAY w0) as [Hresp _].
  apply Hresp. reflexivity.
Defined.

(** The exception of the rule: with a delay of [10 ** 10] seconds the error
    raised is not the error of the last call. *)
Example rejected_delay_hides_the_last_error :
  let run := generate_content_with_retry quota_forever 2 HUGE_DELAY w0 in
  models_generate_content quota_forever (pred (calls (snd run))) = Raise quota /\
  fst run
  = Raise (mkExn "OverflowError"
                 "timestamp too large to convert to C _PyTime_t").
Proof. split; vm_compute; reflexivity. Qed.

Lemma negative_delay_is_rejected_witness :
  exists e' w',
    generate_content_with_retry quota_forever MAX_RETRIES (-2) w0
    = (Raise e', w') /\
    exn_class e' = "ValueError" /\
    (- SLEEP_MAX <= -2 ->
     e' = mkExn "ValueError" "sleep length must be non-negative") /\
    calls w' = 1%nat /\
    sleeps w' = [].
Proof.
  apply (negative_delay_is_rejected quota_forever MAX_RETRIES (-2) w0 quota).
  - reflexivity.
  - reflexivity.
  - reflexivity.
  - reflexivity.
Defined.

(** Below the range of [time.sleep] the error is an [OverflowError]. *)
Example negative_huge_delay_overflows :
  generate_content_with_retry quota_forever MAX_RETRIES (- HUGE_DELAY) w0
  = (Raise (mkExn "OverflowError"
                  "timestamp too large to convert to C _PyTime_t"),
     {| calls := 1; sleeps := [];
        stdout := [PrintRetry 1 MAX_RETRIES quota (- HUGE_DELAY)];
        files := [] |}).
Proof. vm_compute. reflexivity. Qed.

Lemma no_image_no_remote_call_witness :
  exists w2,
    get_bounding_boxes no_files "test/A.jpg" w0 = (Return None, w2) /\
    only_printed w0 w2.
Proof.
  apply (no_image_no_remote_call no_files "test/A.jpg" w0).
  right. left. reflexivity.
Defined.

Lemma entry_comes_from_last_response_witness :
  file_name {| file_name := "A"; detections := JArr [] |} = stem "test/A.jpg" /\
  exists r t,
    models_generate_content all_ok 0 = Return r /\
    text r = Some t /\
    json_loads all_ok (strip t) = Return (JArr []).
Proof.
  apply (entry_comes_from_last_response all_ok "test/A.jpg" w0
           {| file_name := "A"; detections := JArr [] |}
           {| calls := 1; sleeps := []; stdout := [PrintTokens (Some 1200)];
              files := [] |}).
  reflexivity.
Defined.

Lemma unusable_response_is_not_retried_witness :
  exists w2,
    get_bounding_boxes
      (scripted [Return garbled_response] (Return empty_list_response))
      "test/A.jpg" w0
    = (Return None, w2) /\
    calls w2 = 1%nat /\
    sleeps w2 = [].
Proof.
  apply (unusable_response_is_not_retried
           (scripted [Return garbled_response] (Return empty_list_response))
           "test/A.jpg" w0 garbled_response).
  - reflexivity.
  - reflexivity.
  - reflexivity.
  - reflexivity.
  - right. exists "oops", (mkExn "JSONDecodeError" "Expecting value").
    split; reflexivity.
Defined.

(** A bare number as the second payload: the run is left by the
    [TypeError] of [len] on an [int], and nothing is written. *)
Example bare_number_aborts_without_a_file :
  let run := process_multiple_images
               (scripted [Return empty_list_response; Return number_response]
                         (Return empty_list_response))
               ["test/A.jpg"; "test/B.jpg"; "test/C.jpg"] OUTPUT_JSON_FILE w0 in
  fst run = Raise (no_len "int") /\
  attempted (stdout (snd run)) = ["test/A.jpg"; "test/B.jpg"] /\
  files (snd run) = [].
Proof. repeat split; vm_compute; reflexivity. Qed.

Lemma writes_only_output_file_witness :
  files (snd (process_multiple_images read_only ["test/A.jpg"]
                OUTPUT_JSON_FILE w0))
  = files w0.
Proof.
  destruct (writes_only_output_file read_only ["test/A.jpg"]
              OUTPUT_JSON_FILE w0) as [_ Hopen].
  apply (Hopen permission_denied). reflexivity.
Defined.



Lemma read_only_sized : payloads_sized read_only.
Proof.
  intros n r t v Hn Ht Hv. simpl in Hn, Hv. injection Hn as <-.
  simpl in Ht. injection Ht as <-. vm_compute in Hv. injection Hv as <-.
  right. exists O. reflexivity.
Qed.

Lemma save_error_is_reported_witness :
  exists w',
    process_multiple_images read_only ["test/A.jpg"] OUTPUT_JSON_FILE w0
    = (Return tt, w') /\
    last (stdout w') = Some (PrintSaveError permission_denied) /\
    files w' = files w0.
Proof.
  apply (save_error_is_reported read_only ["test/A.jpg"] OUTPUT_JSON_FILE w0
           permission_denied).
  - apply read_only_sized.
  - reflexivity.
Defined.

Lemma all_succeed_one_call_each_witness :
  exists w',
    collect_results all_ok ["test/A.jpg"; "test/B.jpg"] w0
    = (Return [ {| file_name := "A"; detections := JArr [] |};
                {| file_name := "B"; detections := JArr [] |} ], w') /\
    calls w' = 2%nat /\
    sleeps w' = [].
Proof.
  apply (all_succeed_one_call_each all_ok (fun _ => JArr [])
           ["test/A.jpg"; "test/B.jpg"] w0).
  - reflexivity.
  - intros p _. split; reflexivity.
  - intros k _. exists empty_list_response, "[]", O.
    split; [simpl; destruct k; reflexivity |]. repeat split.
Defined.

Lemma retriable_survives_wrapping_witness :
  is_retriable_error
    ("  [ERROR] Skipping test/A.jpg due to fatal error: "
     +:+ "503 UNAVAILABLE" +:+ " (giving up)")
  = true.
Proof.
  apply (retriable_survives_wrapping
           "  [ERROR] Skipping test/A.jpg due to fatal error: "
           "503 UNAVAILABLE" " (giving up)").
  reflexivity.
Defined.

Lemma listed_name_names_the_entry_witness :
  os_path_join IMAGE_DIR "IMG_01.JPG" = "test/" +:+ "IMG_01.JPG" /\
  basename (os_path_join IMAGE_DIR "IMG_01.JPG") = "IMG_01.JPG" /\
  stem (os_path_join IMAGE_DIR "IMG_01.JPG") = fst (splitext "IMG_01.JPG").
Proof.
  apply (listed_name_names_the_entry "IMG_01.JPG"). reflexivity.
Defined.

Lemma main_stops_without_images_witness :
  main all_ok missing_dir w0 = (Return (Some (PrintNoDirectory IMAGE_DIR)), w0).
Proof.
  destruct (main_stops_without_images all_ok missing_dir w0) as [Hnodir _].
  apply Hnodir. reflexivity.
Defined.

Lemma main_processes_image_names_witness :
  exists o w',
    main all_ok three_entries w0 = (Return o, w') /\
    attempted (stdout w')
    = attempted (stdout w0)
      ++ map (os_path_join IMAGE_DIR)
             (List.filter is_image_name ["a.jpg"; "notes.txt"; "B.JPEG"]).
Proof.
  apply (main_processes_image_names all_ok three_entries w0
           ["a.jpg"; "notes.txt"; "B.JPEG"]).
  - apply all_ok_sized.
  - reflexivity.
  - reflexivity.
Defined.

(** The entries the script selects from a listing, and what it starts. *)
Example main_on_three_entries :
  attempted (stdout (snd (main all_ok three_entries w0)))
  = ["test/a.jpg"; "test/B.JPEG"].
Proof. reflexivity. Qed.
